(** * zepp-extractor: the metrics pipeline of [main.py]

    A shallow embedding of the decoding and analysis code of [main.py]
    ([parse_times], [parse_hr], [parse_pace], [generate_timestamps], the body
    of [process_workout], the row loop of [export_csv] and the batch loop of
    [main]) together with the properties its specification states.

    Conventions of the embedding.
    - A Python [str] is a [string]: a sequence of code points below 256.
    - A Python [int] is a [Z].
    - A Python [float] is a rational [Q]: arithmetic is exact, so rounding,
      infinities and NaN are outside the model of the pipeline, and so is the
      [OverflowError] of an [int] beyond the range of a float.  Equality of
      floats is [Qeq] (written [==]).  Negative values are part of the model.
      The segmenter, which only tests its samples, is also given on
      [pyfloat], with the infinities and NaN.
    - [int(s)] and [float(s)] on a string are parameters of the development
      ([py_int], [py_float]); [None] stands for the [ValueError] they raise.
    - An exception that leaves a function is an explicit outcome. *)

From Stdlib Require Import ZArith QArith Qfield List String Ascii Bool Arith Lia Lqa.
From Stdlib Require Import DecimalString.
Import ListNotations.

Local Open Scope string_scope.
Local Open Scope list_scope.
Local Open Scope nat_scope.

(** ** Python string primitives *)

Module PyStr.

(** [s.split(sep)] for a one-character separator: every piece, the empty
    ones included; the empty string splits into one empty piece. *)
Fixpoint split (sep : ascii) (s : string) : list string :=
  match s with
  | EmptyString => [EmptyString]
  | String c rest =>
      if Ascii.eqb c sep then EmptyString :: split sep rest
      else match split sep rest with
           | [] => [String c EmptyString]
           | piece :: pieces => String c piece :: pieces
           end
  end.

(** [s.replace(old, new)] for one-character [old] and [new]. *)
Fixpoint replace (old new : ascii) (s : string) : string :=
  match s with
  | EmptyString => EmptyString
  | String c rest =>
      String (if Ascii.eqb c old then new else c) (replace old new rest)
  end.

(** [c.isspace()] for the code points below 256: TAB, LF, VT, FF, CR,
    FS, GS, RS, US, SPACE, NEL and NBSP. *)
Definition is_space (c : ascii) : bool :=
  let n := nat_of_ascii c in
  ((9 <=? n) && (n <=? 13)) || ((28 <=? n) && (n <=? 32))
  || (n =? 133) || (n =? 160).

Fixpoint lstrip (s : string) : string :=
  match s with
  | EmptyString => EmptyString
  | String c rest => if is_space c then lstrip rest else s
  end.

Fixpoint rstrip (s : string) : string :=
  match s with
  | EmptyString => EmptyString
  | String c rest =>
      match rstrip rest with
      | EmptyString => if is_space c then EmptyString else String c EmptyString
      | kept => String c kept
      end
  end.

(** [s.strip()] *)
Definition strip (s : string) : string := rstrip (lstrip s).

(** Truth value of a string: non-empty. *)
Definition truthy (s : string) : bool :=
  match s with EmptyString => false | String _ _ => true end.

(** [c in s] for a character [c]. *)
Fixpoint contains (c : ascii) (s : string) : bool :=
  match s with
  | EmptyString => false
  | String c' rest => Ascii.eqb c' c || contains c rest
  end.

End PyStr.

(** ** The raw detail record *)

(** [detail_data]: the three encoded streams; a key may be absent. *)
Record detail_data : Type := mk_detail {
  time : option string;
  heart_rate : option string;
  pace : option string
}.

(** [d.get(key, "")] *)
Definition get_str (field : option string) : string :=
  match field with Some s => s | None => "" end.

(** ** SeriesDecoder *)

Section Decoder.

(** [int(s)] and [float(s)]; [None] is [ValueError]. *)
Variable py_int : string -> option Z.
Variable py_float : string -> option Q.

(** [parse_times]: [[t.strip() for t in t_str.split(";") if t.strip()]] *)
Definition parse_times (d : detail_data) : list string :=
  map PyStr.strip
      (filter (fun t => PyStr.truthy (PyStr.strip t))
              (PyStr.split ";" (get_str (time d)))).

(** The body of the [for segment in segments] loop of [parse_hr], with the
    list [hr_values] it appends to. *)
Fixpoint parse_hr_loop (segments : list string) (hr_values : list Z) : list Z :=
  match segments with
  | [] => hr_values
  | segment :: rest =>
      let parts := PyStr.split "," segment in
      if 1 <? List.length parts then
        match py_int (nth 1 parts "") with
        | Some hr_val => parse_hr_loop rest (hr_values ++ [hr_val])
        | None => parse_hr_loop rest (hr_values ++ [0%Z])
        end
      else parse_hr_loop rest hr_values
  end.

(** [parse_hr] *)
Definition parse_hr (d : detail_data) : list Z :=
  let hr_str := get_str (heart_rate d) in
  if PyStr.truthy hr_str then
    let segments := filter PyStr.truthy (PyStr.split ";" hr_str) in
    parse_hr_loop segments []
  else [].

(** [parse_pace] *)
Definition parse_pace (d : detail_data) : list string :=
  let pace_str := PyStr.replace "," "." (get_str (pace d)) in
  map PyStr.strip
      (filter (fun v => PyStr.truthy (PyStr.strip v))
              (PyStr.split ";" pace_str)).

(** [[float(x) for x in xs]]: the comprehension raises at the first token
    that [float] rejects. *)
Fixpoint floats_of (xs : list string) : option (list Q) :=
  match xs with
  | [] => Some []
  | x :: rest =>
      match py_float x with
      | None => None
      | Some v =>
          match floats_of rest with
          | None => None
          | Some vs => Some (v :: vs)
          end
      end
  end.

(** The [try]/[except] of [process_workout] that builds [processed_pace]. *)
Definition process_pace (raw_paces : list string) (num_points : nat) : list Q :=
  match floats_of (firstn num_points raw_paces) with
  | Some values => values
  | None => repeat 0%Q num_points
  end.

End Decoder.

(** ** Python numeric primitives *)

Module PyNum.

(** [x < y] on floats. *)
Definition Qlt_bool (x y : Q) : bool := negb (Qle_bool y x).

(** An [int] used where a float is expected. *)
Definition of_nat (n : nat) : Q := inject_Z (Z.of_nat n).

(** [sum(xs)] over ints: starts from 0 and adds from the left. *)
Definition zsum (xs : list Z) : Z := fold_left Z.add xs 0%Z.

(** [sum(xs)] over floats. *)
Definition qsum (xs : list Q) : Q := fold_left Qplus xs 0%Q.

(** [max(xs)] and [min(xs)] of a non-empty list: the first extremal item. *)
Definition qmax (x : Q) (xs : list Q) : Q :=
  fold_left (fun best y => if Qlt_bool best y then y else best) xs x.

Definition qmin (x : Q) (xs : list Q) : Q :=
  fold_left (fun best y => if Qlt_bool y best then y else best) xs x.

End PyNum.

Import PyNum.

(** ** HeartRateReconstructor (lines 212-222 of [process_workout]) *)

(** [float(hr_values[0]) if hr_values else 70.0] *)
Definition base_hr_of (hr_values : list Z) : Q :=
  match hr_values with
  | first :: _ => inject_Z first
  | [] => 70%Q
  end.

(** [hr_values[1:] if len(hr_values) > 1 else []] *)
Definition hr_differences_of (hr_values : list Z) : list Z :=
  if 1 <? List.length hr_values then skipn 1 hr_values else [].

(** The [for diff in hr_differences] loop, with the running [cumulative]
    and the list [current_hr] it appends to. *)
Fixpoint accumulate_hr (hr_differences : list Z) (cumulative : Q)
    (current_hr : list Q) : list Q :=
  match hr_differences with
  | [] => current_hr
  | diff :: rest =>
      let cumulative := (cumulative + inject_Z diff)%Q in
      accumulate_hr rest cumulative (current_hr ++ [cumulative])
  end.

(** [current_hr] as line 219 leaves it:
    [(current_hr + [current_hr[-1]] * num_points)[:num_points]]. *)
Definition reconstruct_hr (hr_values : list Z) (num_points : nat) : list Q :=
  let base_hr := base_hr_of hr_values in
  let hr_differences := hr_differences_of hr_values in
  let current_hr := accumulate_hr hr_differences base_hr [base_hr] in
  firstn num_points (current_hr ++ repeat (last current_hr 0%Q) num_points).

(** [hr_variations]: [([0] + hr_differences)[:num_points]]. *)
Definition hr_variations_of (hr_values : list Z) (num_points : nat) : list Z :=
  firstn num_points (0%Z :: hr_differences_of hr_values).

(** ** Heart-rate variance (lines 234-239) *)

Definition hr_variance_of (hr_variations : list Z) : Q :=
  if 1 <? List.length hr_variations then
    let diffs := skipn 1 hr_variations in
    let mean_diff := (inject_Z (zsum diffs) / of_nat (List.length diffs))%Q in
    (qsum (map (fun d => (inject_Z d - mean_diff) ^ 2) diffs)
       / of_nat (List.length diffs))%Q
  else 0%Q.

(** Population variance as the specification words it: the mean of the
    squared deviations from the mean. *)
Definition mean (xs : list Q) : Q :=
  (fold_right Qplus 0 xs / of_nat (List.length xs))%Q.

Definition population_variance (xs : list Q) : Q :=
  mean (map (fun x => ((x - mean xs) * (x - mean xs))%Q) xs).

(** ** ZoneClassifier (lines 241-254) *)

(** [hr_max_theoretical] *)
Definition hr_max_theoretical : Q := 196%Q.

(** [hr_zones], in the insertion order of the dict, for a maximum [M]. *)
Definition hr_zones (M : Q) : list (string * (Q * Q)) :=
  [ ("Z1 (50-60%)", ((5 # 10) * M, (6 # 10) * M)%Q);
    ("Z2 (60-70%)", ((6 # 10) * M, (7 # 10) * M)%Q);
    ("Z3 (70-80%)", ((7 # 10) * M, (8 # 10) * M)%Q);
    ("Z4 (80-90%)", ((8 # 10) * M, (9 # 10) * M)%Q);
    ("Z5 (90-100%)", ((9 # 10) * M, M)%Q) ].

(** [low <= hr < high] *)
Definition in_band (hr low high : Q) : bool :=
  Qle_bool low hr && Qlt_bool hr high.

(** [zone_counts[zone] += 1] on the dict kept as an association list. *)
Fixpoint incr (zone : string) (zone_counts : list (string * nat))
    : list (string * nat) :=
  match zone_counts with
  | [] => []
  | (z, count) :: rest =>
      if String.eqb z zone then (z, S count) :: rest
      else (z, count) :: incr zone rest
  end.

(** The inner [for zone, (low, high) in hr_zones.items()] loop for one
    sample: the first band that holds [hr] is counted, then [break]. *)
Fixpoint count_sample (zones : list (string * (Q * Q))) (hr : Q)
    (zone_counts : list (string * nat)) : list (string * nat) :=
  match zones with
  | [] => zone_counts
  | (zone, (low, high)) :: rest =>
      if in_band hr low high then incr zone zone_counts
      else count_sample rest hr zone_counts
  end.

(** [zone_counts] after the outer [for hr in current_hr] loop. *)
Definition zone_counts_of (M : Q) (current_hr : list Q) : list (string * nat) :=
  fold_left (fun zone_counts hr => count_sample (hr_zones M) hr zone_counts)
            current_hr
            (map (fun z => (fst z, 0)) (hr_zones M)).

(** [zone_percentages], for [num_points > 0] (the division raises at 0). *)
Definition zone_percentages_of (M : Q) (current_hr : list Q) (num_points : nat)
    : list (string * Q) :=
  map (fun zc => (fst zc, (of_nat (snd zc) / of_nat num_points * 100)%Q))
      (zone_counts_of M current_hr).

(** ** EffortRestSegmenter (lines 256-281) *)

Inductive seg_state : Type := idle | effort.

(** The four variables the loop updates. *)
Record segmenter : Type := mk_segmenter {
  effort_durations : list nat;
  rest_durations : list nat;
  state : seg_state;
  duration : nat
}.

(** One iteration of [for p in processed_pace]. *)
Definition seg_step (s : segmenter) (p : Q) : segmenter :=
  if Qlt_bool 0 p then
    match state s with
    | effort =>
        mk_segmenter (effort_durations s) (rest_durations s) effort (duration s + 1)
    | idle =>
        mk_segmenter (effort_durations s) (rest_durations s ++ [duration s]) effort 1
    end
  else
    match state s with
    | idle =>
        mk_segmenter (effort_durations s) (rest_durations s) idle (duration s + 1)
    | effort =>
        mk_segmenter (effort_durations s ++ [duration s]) (rest_durations s) idle 1
    end.

(** The variables before the loop, from [processed_pace[0]]. *)
Definition seg_init (first : Q) : segmenter :=
  mk_segmenter [] [] (if Qeq_bool first 0 then idle else effort) 0.

(** The flush after the loop. *)
Definition seg_flush (s : segmenter) : list nat * list nat :=
  match state s with
  | effort => (effort_durations s ++ [duration s], rest_durations s)
  | idle => (effort_durations s, rest_durations s ++ [duration s])
  end.

(** [(effort_durations, rest_durations)] for a pace series; [None] is the
    [IndexError] of [processed_pace[0]] on an empty series. *)
Definition segment (processed_pace : list Q) : option (list nat * list nat) :=
  match processed_pace with
  | [] => None
  | first :: _ => Some (seg_flush (fold_left seg_step processed_pace (seg_init first)))
  end.

(** [sum(ds) / len(ds) if ds else 0] *)
Definition average_duration (durations : list nat) : Q :=
  match durations with
  | [] => 0%Q
  | _ => (of_nat (list_sum durations) / of_nat (List.length durations))%Q
  end.

(** Maximal runs, as the specification words the segmenter: the flag of each
    sample, grouped into maximal runs of equal flags. *)
Definition merge_run (flag : bool) (len : nat) (rs : list (bool * nat))
    : list (bool * nat) :=
  match rs with
  | (flag', len') :: rest =>
      if Bool.eqb flag' flag then (flag, len + len') :: rest
      else (flag, len) :: rs
  | [] => [(flag, len)]
  end.

Fixpoint runs (flags : list bool) : list (bool * nat) :=
  match flags with
  | [] => []
  | flag :: rest => merge_run flag 1 (runs rest)
  end.

Definition run_lengths (flag : bool) (rs : list (bool * nat)) : list nat :=
  map snd (filter (fun r => Bool.eqb (fst r) flag) rs).

(** The lengths, in order, of the maximal runs of samples that satisfy [P]. *)
Definition runs_where (P : Q -> bool) (paces : list Q) : list nat :=
  run_lengths true (runs (map P paces)).

Definition is_effort (p : Q) : bool := Qlt_bool 0 p.
Definition is_rest (p : Q) : bool := Qeq_bool p 0.

(** *** The segmenter on every float

    The loop reads a pace sample through two tests only, [p == 0] (for the
    first sample) and [p > 0].  [segment_by] is the same code over any type
    of samples with these two tests, and [pyfloat] gives the tests of a
    Python float: a finite value, an infinity, or NaN, which is neither
    equal to 0 nor greater than 0. *)

Inductive pyfloat : Type :=
| finite (q : Q)
| pos_inf
| neg_inf
| nan.

(** [p == 0] *)
Definition float_eq0 (p : pyfloat) : bool :=
  match p with
  | finite q => Qeq_bool q 0
  | _ => false
  end.

(** [p > 0] *)
Definition float_gt0 (p : pyfloat) : bool :=
  match p with
  | finite q => Qlt_bool 0 q
  | pos_inf => true
  | _ => false
  end.

(** [p >= 0]: false of a negative sample and of NaN. *)
Definition float_ge0 (p : pyfloat) : bool :=
  match p with
  | finite q => Qle_bool 0 q
  | pos_inf => true
  | _ => false
  end.

Section SegmenterBy.

Variable sample : Type.
Variable eq0 : sample -> bool.
Variable gt0 : sample -> bool.

(** One iteration of [for p in processed_pace]. *)
Definition seg_step_by (s : segmenter) (p : sample) : segmenter :=
  if gt0 p then
    match state s with
    | effort =>
        mk_segmenter (effort_durations s) (rest_durations s) effort (duration s + 1)
    | idle =>
        mk_segmenter (effort_durations s) (rest_durations s ++ [duration s]) effort 1
    end
  else
    match state s with
    | idle =>
        mk_segmenter (effort_durations s) (rest_durations s) idle (duration s + 1)
    | effort =>
        mk_segmenter (effort_durations s ++ [duration s]) (rest_durations s) idle 1
    end.

(** The variables before the loop, from [processed_pace[0]]. *)
Definition seg_init_by (first : sample) : segmenter :=
  mk_segmenter [] [] (if eq0 first then idle else effort) 0.

(** Lines 256-278 on a series of such samples. *)
Definition segment_by (processed_pace : list sample)
    : option (list nat * list nat) :=
  match processed_pace with
  | [] => None
  | first :: _ =>
      Some (seg_flush (fold_left seg_step_by processed_pace (seg_init_by first)))
  end.

(** The lengths, in order, of the maximal runs of samples that satisfy [P]. *)
Definition runs_where_by (P : sample -> bool) (paces : list sample) : list nat :=
  run_lengths true (runs (map P paces)).

End SegmenterBy.

(** Lines 256-278 on Python floats. *)
Definition segment_float : list pyfloat -> option (list nat * list nat) :=
  segment_by pyfloat float_eq0 float_gt0.

(** ** MetricsAggregator and the rest of [process_workout] *)

(** A history record, with the keys [process_workout] reads. *)
Record workout : Type := mk_workout {
  trackid : string;
  source : string;
  total_trips : option string;
  swim_pool_length : option string
}.

(** [computed_metrics] *)
Record computed_metrics : Type := mk_metrics {
  total_distance : Q;
  average_pace : Q;
  percentage_moving : Q;
  percentage_idle : Q;
  hr_max : Q;
  hr_min : Q;
  hr_start : Q;
  hr_end : Q;
  hr_variance : Q;
  avg_effort_duration : Q;
  avg_rest_duration : Q;
  zone_percentages : list (string * Q)
}.

(** One row of the time-series section of the report. *)
Record row : Type := mk_row {
  row_timestamp : string;
  row_relative : nat;
  row_hr_variation : Z;
  row_current_hr : Q;
  row_pace : Q
}.

(** What [export_csv] receives and the rows it writes. *)
Record report : Type := mk_report {
  report_timestamps : list string;
  report_hr_variations : list Z;
  report_current_hr : list Q;
  report_paces : list Q;
  report_metrics : computed_metrics;
  report_rows : list row
}.

Inductive log_entry : Type :=
| log_info (msg : string)
| log_warning (msg : string).

(** How a call of [process_workout] ends: it returns early, it returns after
    the export, or an exception leaves it. *)
Inductive outcome : Type :=
| Skipped
| Exported (r : report)
| Raised.

(** [sum(1 for p in processed_pace if p > 0)] *)
Definition moving_count (processed_pace : list Q) : nat :=
  List.length (filter (fun p => Qlt_bool 0 p) processed_pace).

(** The time-series loop of [export_csv]:
    [for i in range(len(timestamps))] with the four indexed reads; [None] is
    an [IndexError]. *)
Fixpoint export_rows_from (indices : list nat) (timestamps : list string)
    (hr_variations : list Z) (current_hr paces : list Q) : option (list row) :=
  match indices with
  | [] => Some []
  | i :: rest =>
      match nth_error timestamps i, nth_error hr_variations i,
            nth_error current_hr i, nth_error paces i with
      | Some t, Some v, Some hr, Some p =>
          match export_rows_from rest timestamps hr_variations current_hr paces with
          | Some rows => Some (mk_row t i v hr p :: rows)
          | None => None
          end
      | _, _, _, _ => None
      end
  end.

Definition export_rows (timestamps : list string) (hr_variations : list Z)
    (current_hr paces : list Q) : option (list row) :=
  export_rows_from (seq 0 (List.length timestamps))
                   timestamps hr_variations current_hr paces.

Section Workout.

Variable py_int : string -> option Z.
Variable py_float : string -> option Q.

(** [get_workout_detail(token, track_id, source).get("data", {})];
    [None] is an exception of the HTTP request. *)
Variable get_workout_detail : string -> string -> option detail_data.

(** [datetime.fromtimestamp(n, tz=utc).astimezone(ZoneInfo(...))] and
    [(start_time + timedelta(seconds=i)).strftime("%H:%M:%S")]. *)
Variable datetime : Type.
Variable local_datetime : Z -> option datetime.
Variable strftime_after : datetime -> nat -> string.

(** [start_time.strftime("%Y-%m-%d_%H-%M-%S.csv")] *)
Variable strftime_file : datetime -> string.

(** [output_dir / file_name] as the log prints it, with [output_dir] the
    relative path [workouts]. *)
Definition output_path (start_time : datetime) : string :=
  "workouts/" ++ strftime_file start_time.

(** [generate_timestamps] *)
Definition generate_timestamps (start_time : datetime) (count : nat)
    : list string :=
  map (strftime_after start_time) (seq 0 count).

(** [float(workout.get(key, 0))] *)
Definition float_field (field : option string) : option Q :=
  match field with
  | None => Some 0%Q
  | Some s => py_float s
  end.

(** [num_points] *)
Definition num_points_of (d : detail_data) : nat :=
  Nat.min (List.length (parse_times d))
          (Nat.min (List.length (parse_hr py_int d))
                   (List.length (parse_pace d))).

(** Lines 229-304: the metrics record from the aligned series.  [None] is
    an exception: [max] of an empty list, [processed_pace[0]] of an empty
    list, a division by [num_points = 0], or a [float] that fails. *)
Definition compute_metrics (w : workout) (num_points : nat)
    (hr_variations : list Z) (current_hr processed_pace : list Q)
    : option computed_metrics :=
  match num_points, current_hr, segment processed_pace,
        float_field (total_trips w), float_field (swim_pool_length w) with
  | S _, first_hr :: later_hr, Some (efforts, rests), Some laps, Some pool_length =>
      let moving := moving_count processed_pace in
      let percentage_moving := (of_nat moving / of_nat num_points * 100)%Q in
      Some (mk_metrics
              (laps * pool_length)%Q
              (if 0 <? num_points
               then (qsum processed_pace / of_nat num_points)%Q else 0%Q)
              percentage_moving
              (100 - percentage_moving)%Q
              (qmax first_hr later_hr)
              (qmin first_hr later_hr)
              first_hr
              (last current_hr 0%Q)
              (hr_variance_of hr_variations)
              (average_duration efforts)
              (average_duration rests)
              (zone_percentages_of hr_max_theoretical current_hr num_points))
  | _, _, _, _, _ => None
  end.

(** [process_workout]: the log it writes and how it ends. *)
Definition process_workout (w : workout) : list log_entry * outcome :=
  let track_id := trackid w in
  let log := [log_info ("Processing workout with track_id " ++ track_id)] in
  match get_workout_detail track_id (source w) with
  | None => (log, Raised)
  | Some d =>
      let raw_times := parse_times d in
      let hr_values := parse_hr py_int d in
      let raw_paces := parse_pace d in
      let num_points := num_points_of d in
      if num_points =? 0 then
        (log ++ [log_warning ("No usable data for workout " ++ track_id)], Skipped)
      else
        match py_int track_id with
        | None => (log, Raised)
        | Some seconds =>
            match local_datetime seconds with
            | None => (log, Raised)
            | Some start_time =>
                let timestamps := generate_timestamps start_time num_points in
                let current_hr := reconstruct_hr hr_values num_points in
                let hr_variations := hr_variations_of hr_values num_points in
                let processed_pace := process_pace py_float raw_paces num_points in
                match compute_metrics w num_points hr_variations current_hr
                                      processed_pace with
                | None => (log, Raised)
                | Some metrics =>
                    match export_rows timestamps hr_variations current_hr
                                      processed_pace with
                    | None => (log, Raised)
                    | Some rows =>
                        (log ++ [log_info ("CSV exported to "
                                           ++ output_path start_time)],
                         Exported (mk_report timestamps hr_variations current_hr
                                             processed_pace metrics rows))
                    end
                end
            end
        end
  end.

(** The [for workout in swimming_workouts] loop of [main]: the log, the
    reports exported in order, and whether the loop ran to its end (an
    exception in one call leaves [main]). *)
Fixpoint process_all (workouts : list workout)
    : list log_entry * list report * bool :=
  match workouts with
  | [] => ([], [], true)
  | w :: rest =>
      match process_workout w with
      | (log, Raised) => (log, [], false)
      | (log, Skipped) =>
          let '(log', reports, finished) := process_all rest in
          (log ++ log', reports, finished)
      | (log, Exported r) =>
          let '(log', reports, finished) := process_all rest in
          (log ++ log', r :: reports, finished)
      end
  end.

End Workout.

(** ** Definitions used to state the properties *)

(** The token [parse_hr] appends for a segment that holds a comma: its second
    comma-delimited field through [int], or 0. *)
Definition hr_token (py_int : string -> option Z) (segment : string) : Z :=
  match py_int (nth 1 (PyStr.split "," segment) "") with
  | Some hr_val => hr_val
  | None => 0%Z
  end.

(** [sep.join(pieces)] *)
Fixpoint join (sep : ascii) (pieces : list string) : string :=
  match pieces with
  | [] => ""
  | [piece] => piece
  | piece :: rest => piece ++ String sep (join sep rest)
  end.

(** The first band, in the listed order, that holds [hr]. *)
Fixpoint first_band (zones : list (string * (Q * Q))) (hr : Q) : option string :=
  match zones with
  | [] => None
  | (zone, (low, high)) :: rest =>
      if in_band hr low high then Some zone else first_band rest hr
  end.

(** How many samples have [zone] as their first band. *)
Definition count_in (M : Q) (zone : string) (current_hr : list Q) : nat :=
  List.length
    (filter (fun hr => match first_band (hr_zones M) hr with
                       | Some z => String.eqb z zone
                       | None => false
                       end) current_hr).

(** The labels of [hr_zones], in order. *)
Definition zone_names : list string :=
  ["Z1 (50-60%)"; "Z2 (60-70%)"; "Z3 (70-80%)"; "Z4 (80-90%)"; "Z5 (90-100%)"].

(** The run flag of a state: [true] for effort. *)
Definition flag_of (st : seg_state) : bool :=
  match st with effort => true | idle => false end.

(** How many samples lie in the band [low <= hr < high]. *)
Definition band_count (current_hr : list Q) (low high : Q) : nat :=
  List.length (filter (fun hr => in_band hr low high) current_hr).

(** The five bands written out: label, then the samples counted in it. *)
Definition band_counts (M : Q) (current_hr : list Q) : list (string * nat) :=
  [ ("Z1 (50-60%)", band_count current_hr ((5 # 10) * M) ((6 # 10) * M))%Q;
    ("Z2 (60-70%)", band_count current_hr ((6 # 10) * M) ((7 # 10) * M))%Q;
    ("Z3 (70-80%)", band_count current_hr ((7 # 10) * M) ((8 # 10) * M))%Q;
    ("Z4 (80-90%)", band_count current_hr ((8 # 10) * M) ((9 # 10) * M))%Q;
    ("Z5 (90-100%)", band_count current_hr ((9 # 10) * M) M)%Q ].

(** A sample below 50% of [M] or at or above 100% of [M]. *)
Definition out_of_bands (M hr : Q) : Prop :=
  (hr < (5 # 10) * M)%Q \/ (M <= hr)%Q.

(** The running totals [base + d1], [base + d1 + d2], ... *)
Fixpoint running_totals (base : Q) (diffs : list Z) : list Q :=
  match diffs with
  | [] => []
  | d :: rest => (base + inject_Z d)%Q :: running_totals (base + inject_Z d)%Q rest
  end.

(** ** A concrete instance of the parameters

    [int] and [float] restricted to plain decimal literals (an optional
    minus sign, digits, and for [float] an optional fraction), on which they
    agree with Python; time stamps kept as a number of seconds. *)

Module Sample.

Definition digit_of (c : ascii) : option Z :=
  let n := nat_of_ascii c in
  if (48 <=? n) && (n <=? 57) then Some (Z.of_nat (n - 48)) else None.

Fixpoint digits_value (s : string) (acc : Z) : option Z :=
  match s with
  | EmptyString => Some acc
  | String c rest =>
      match digit_of c with
      | Some d => digits_value rest (10 * acc + d)%Z
      | None => None
      end
  end.

Definition unsigned_int (s : string) : option Z :=
  if PyStr.truthy s then digits_value s 0%Z else None.

Definition decimal_int (s : string) : option Z :=
  match s with
  | String "-" rest => option_map Z.opp (unsigned_int rest)
  | _ => unsigned_int s
  end.

Definition unsigned_float (s : string) : option Q :=
  match PyStr.split "." s with
  | [whole] => option_map inject_Z (unsigned_int whole)
  | [whole; frac] =>
      match unsigned_int whole, unsigned_int frac with
      | Some a, Some b =>
          Some (Qred (inject_Z a
                      + inject_Z b / inject_Z (10 ^ Z.of_nat (String.length frac))))%Q
      | _, _ => None
      end
  | _ => None
  end.

Definition decimal_float (s : string) : option Q :=
  match s with
  | String "-" rest => option_map Qopp (unsigned_float rest)
  | _ => unsigned_float s
  end.

Definition seconds_datetime (seconds : Z) : option Z := Some seconds.

Definition no_format (start : Z) (i : nat) : string := "".

Definition file_name (start : Z) : string := "workout.csv".

(** A detail service backed by a table keyed by track id; a track id that
    is not in the table makes the request fail. *)
Fixpoint lookup (table : list (string * detail_data)) (track_id source : string)
    : option detail_data :=
  match table with
  | [] => None
  | (key, d) :: rest =>
      if String.eqb key track_id then Some d else lookup rest track_id source
  end.

(** Three aligned samples: heart rate 70, 75, 72; pace 1.5, 0, 2.25. *)
Definition swim_detail : detail_data :=
  mk_detail (Some "0;1;2") (Some "0,70;1,5;2,-3") (Some "1,5;0;2,25").

(** No time stamp at all: the common prefix length is 0. *)
Definition blank_detail : detail_data :=
  mk_detail (Some "") (Some "0,70") (Some "1,5").

Definition swim : workout :=
  mk_workout "1700000000" "run.mifit.huami.com" (Some "40") (Some "25").

Definition blank : workout :=
  mk_workout "1700003600" "run.mifit.huami.com" (Some "0") (Some "25").

Definition service : string -> string -> option detail_data :=
  lookup [("1700000000", swim_detail); ("1700003600", blank_detail)].

End Sample.

(** ** The run time of [export_csv] *)

(** [str(n)] for an [int]. *)
Definition py_str (n : Z) : string := NilZero.string_of_int (Z.to_int n).

(** [f"{n:02d}"]: at least two characters, zeros added on the left of a
    one-digit number (a negative number already has two characters). *)
Definition format_02d (n : Z) : string :=
  let digits := py_str n in
  if String.length digits <? 2 then "0" ++ digits else digits.

(** Lines 102-105: [run_time_sec] and its split into [h], [m], [s]; [//]
    and [%] round towards minus infinity, as [Z.div] and [Z.modulo] do for a
    positive divisor. *)
Definition run_time_sec (timestamps : list string) : Z :=
  (Z.of_nat (List.length timestamps) - 1)%Z.

Definition run_time_parts (timestamps : list string) : Z * Z * Z :=
  let sec := run_time_sec timestamps in
  (sec / 3600, (sec mod 3600) / 60, sec mod 60)%Z.

(** Line 106: [formatted_run_time]. *)
Definition formatted_run_time (timestamps : list string) : string :=
  let '(h, m, s) := run_time_parts timestamps in
  format_02d h ++ ":" ++ format_02d m ++ ":" ++ format_02d s.

(** ** [main] *)

Section Main.

Variable py_int : string -> option Z.
Variable py_float : string -> option Q.
Variable get_workout_detail : string -> string -> option detail_data.
Variable datetime : Type.
Variable local_datetime : Z -> option datetime.
Variable strftime_after : datetime -> nat -> string.
Variable strftime_file : datetime -> string.

(** [get_workout_history(token).get("data", {}).get("summary", [])];
    [None] is an exception of the HTTP request. *)
Variable get_workout_history : option (list workout).

(** The comprehension that selects the swimming workouts:
    [w.get("swim_pool_length") and float(w.get("swim_pool_length")) > 0].
    An absent or empty pool length is falsy and [float] is not called; [None]
    is the [ValueError] of a [float] that fails. *)
Fixpoint select_swimming (workouts : list workout) : option (list workout) :=
  match workouts with
  | [] => Some []
  | w :: rest =>
      let keep :=
        match swim_pool_length w with
        | None => Some false
        | Some s =>
            if PyStr.truthy s then
              match py_float s with
              | None => None
              | Some v => Some (Qlt_bool 0 v)
              end
            else Some false
        end in
      match keep, select_swimming rest with
      | Some true, Some selected => Some (w :: selected)
      | Some false, Some selected => Some selected
      | _, _ => None
      end
  end.

(** [main]: the log, the reports in order, and whether it returned (an
    exception leaves it otherwise).  Creating the output directory is outside
    the model. *)
Definition main : list log_entry * list report * bool :=
  let log := [log_info "Retrieving workouts..."] in
  match get_workout_history with
  | None => (log, [], false)
  | Some workouts =>
      match select_swimming workouts with
      | None => (log, [], false)
      | Some [] => (log ++ [log_warning "No swimming workouts found."], [], true)
      | Some swimming_workouts =>
          let found :=
            log_info ("Found " ++ py_str (Z.of_nat (List.length swimming_workouts))
                      ++ " swimming workout(s). Retrieving details...") in
          let '(log', reports, finished) :=
            process_all py_int py_float get_workout_detail datetime
                        local_datetime strftime_after strftime_file
                        swimming_workouts in
          (log ++ [found] ++ log', reports, finished)
      end
  end.

End Main.

(** ** More definitions used to state the properties *)

(** Delta encoding of an absolute series: the first value, then each value
    minus the one before it. *)
Fixpoint deltas_from (previous : Z) (values : list Z) : list Z :=
  match values with
  | [] => []
  | v :: rest => (v - previous)%Z :: deltas_from v rest
  end.

Definition delta_encode (values : list Z) : list Z :=
  match values with
  | [] => []
  | v :: rest => v :: deltas_from v rest
  end.

(** A heart-rate segment [timestamp,hr] of the raw stream. *)
Definition hr_segment (pair : string * string) : string :=
  fst pair ++ String "," (snd pair).

(** Neither [;] nor [,] occurs in the string. *)
Definition plain (s : string) : Prop :=
  PyStr.contains ";" s = false /\ PyStr.contains "," s = false.

(** A token that the decoders of the time and pace streams return as it is:
    not empty, without [;], and with no white space at either end. *)
Definition clean_token (t : string) : Prop :=
  PyStr.truthy t = true /\ PyStr.contains ";" t = false /\ PyStr.strip t = t.

(** Consecutive runs have different flags. *)
Fixpoint alternating (rs : list (bool * nat)) : Prop :=
  match rs with
  | (flag, _) :: (((flag', _) :: _) as rest) => flag <> flag' /\ alternating rest
  | _ => True
  end.

(** A sample inside 50% .. 100% of [M]. *)
Definition in_bands (M hr : Q) : Prop :=
  ((5 # 10) * M <= hr)%Q /\ (hr < M)%Q.

(** The reports a call of [process_workout] exports: one or none. *)
Definition exported_of (o : outcome) : list report :=
  match o with
  | Exported r => [r]
  | _ => []
  end.

(** The selection test of [main] where [float] does not fail: a pool length
    that is present, not empty and parses to a positive number. *)
Definition pool_is_positive (py_float : string -> option Q) (w : workout) : bool :=
  match swim_pool_length w with
  | Some s =>
      PyStr.truthy s
      && match py_float s with
         | Some v => Qlt_bool 0 v
         | None => false
         end
  | None => false
  end.

(** The row of index [i] of the time-series section. *)
Definition row_at (timestamps : list string) (hr_variations : list Z)
    (current_hr paces : list Q) (i : nat) : row :=
  mk_row (nth i timestamps "") i (nth i hr_variations 0%Z)
         (nth i current_hr 0%Q) (nth i paces 0%Q).

(** More sample records: a pace stream with a token that is no number, a
    workout the detail service does not know, and a history. *)
Module MoreSamples.

Definition garbled_detail : detail_data :=
  mk_detail (Some "0;1;2") (Some "0,70;1,5;2,-3") (Some "1,5;n/a;2,25").

Definition garbled : workout :=
  mk_workout "1700007200" "run.mifit.huami.com" (Some "40") (Some "25").

Definition unknown : workout :=
  mk_workout "1700010800" "run.mifit.huami.com" (Some "40") (Some "25").

Definition run_only : workout :=
  mk_workout "1700014400" "run.mifit.huami.com" None None.

Definition bad_pool : workout :=
  mk_workout "1700018000" "run.mifit.huami.com" (Some "40") (Some "25m").

Definition service : string -> string -> option detail_data :=
  Sample.lookup [("1700000000", Sample.swim_detail);
                 ("1700003600", Sample.blank_detail);
                 ("1700007200", garbled_detail)].

Definition history : list workout :=
  [Sample.swim; run_only; Sample.blank; garbled].

End MoreSamples.

(** * Properties *)

(** ** Strings *)

Section SplitFacts.

Variable sep : ascii.

Lemma split_not_nil (s : string) : PyStr.split sep s <> [].
Proof.
  destruct s as [|c rest]; simpl; [discriminate|].
  destruct (Ascii.eqb c sep); [discriminate|].
  destruct (PyStr.split sep rest); discriminate.
Qed.

(** More than one piece exactly when the separator occurs. *)
Lemma split_length_contains (s : string) :
  (1 <? List.length (PyStr.split sep s)) = PyStr.contains sep s.
Proof.
  induction s as [|c rest IH]; simpl; [reflexivity|].
  pose proof (split_not_nil rest) as Hne.
  destruct (Ascii.eqb c sep); simpl.
  - destruct (PyStr.split sep rest); [contradiction|reflexivity].
  - destruct (PyStr.split sep rest); [contradiction|exact IH].
Qed.

(** No piece holds the separator. *)
Lemma split_pieces_free (s : string) :
  Forall (fun piece => PyStr.contains sep piece = false) (PyStr.split sep s).
Proof.
  induction s as [|c rest IH]; simpl.
  - constructor; [reflexivity|constructor].
  - destruct (Ascii.eqb c sep) eqn:E.
    + constructor; [reflexivity|exact IH].
    + destruct (PyStr.split sep rest) as [|piece pieces]; simpl.
      * constructor; [simpl; now rewrite E|constructor].
      * inversion IH; subst. constructor; [simpl; now rewrite E|assumption].
Qed.

(** Joining the pieces with the separator gives the string back. *)
Lemma join_split (s : string) : join sep (PyStr.split sep s) = s.
Proof.
  induction s as [|c rest IH]; simpl; [reflexivity|].
  pose proof (split_not_nil rest) as Hne.
  destruct (Ascii.eqb c sep) eqn:E.
  - apply Ascii.eqb_eq in E; subst c.
    destruct (PyStr.split sep rest) as [|piece pieces]; [contradiction|].
    simpl in *. now rewrite IH.
  - destruct (PyStr.split sep rest) as [|piece pieces]; [contradiction|].
    destruct pieces; simpl in *; now rewrite IH.
Qed.

(** A character of a piece is a character of the string. *)
Lemma split_piece_chars (c : ascii) (s : string) :
  Forall (fun piece => PyStr.contains c piece = true -> PyStr.contains c s = true)
         (PyStr.split sep s).
Proof.
  induction s as [|a rest IH]; simpl.
  - constructor; [discriminate|constructor].
  - destruct (Ascii.eqb a sep).
    + constructor; [discriminate|].
      eapply Forall_impl; [|exact IH].
      intros piece H Hc. rewrite (H Hc). apply orb_true_r.
    + destruct (PyStr.split sep rest) as [|piece pieces].
      * constructor; [|constructor]. simpl. rewrite orb_false_r.
        intros H. now rewrite H.
      * inversion IH as [|? ? Hpiece Hpieces]; subst. constructor.
        -- simpl. intros H. apply orb_true_iff in H as [H|H].
           ++ now rewrite H.
           ++ rewrite (Hpiece H). apply orb_true_r.
        -- eapply Forall_impl; [|exact Hpieces].
           intros p H Hc. rewrite (H Hc). apply orb_true_r.
Qed.

End SplitFacts.

Lemma lstrip_chars (c : ascii) (s : string) :
  PyStr.contains c (PyStr.lstrip s) = true -> PyStr.contains c s = true.
Proof.
  induction s as [|a rest IH]; simpl; [trivial|].
  destruct (PyStr.is_space a); [|trivial].
  intros H. rewrite (IH H). apply orb_true_r.
Qed.

Lemma rstrip_chars (c : ascii) (s : string) :
  PyStr.contains c (PyStr.rstrip s) = true -> PyStr.contains c s = true.
Proof.
  induction s as [|a rest IH]; simpl; [trivial|].
  destruct (PyStr.rstrip rest) as [|b kept] eqn:E.
  - destruct (PyStr.is_space a); simpl; [discriminate|].
    rewrite orb_false_r. intros H. now rewrite H.
  - intros H. change (PyStr.contains c (String a (String b kept)) = true) in H.
    simpl in H. apply orb_true_iff in H as [H|H].
    + now rewrite H.
    + rewrite IH; [apply orb_true_r|exact H].
Qed.

Lemma strip_chars (c : ascii) (s : string) :
  PyStr.contains c (PyStr.strip s) = true -> PyStr.contains c s = true.
Proof.
  unfold PyStr.strip. intros H. now apply lstrip_chars, rstrip_chars.
Qed.

(** After [replace(old, new)] with [new <> old], [old] is gone. *)
Lemma replace_removes (old new : ascii) (s : string) :
  new <> old -> PyStr.contains old (PyStr.replace old new s) = false.
Proof.
  intros Hneq. induction s as [|c rest IH]; simpl; [reflexivity|].
  rewrite IH, orb_false_r.
  destruct (Ascii.eqb c old) eqn:E; [|exact E].
  now apply Ascii.eqb_neq.
Qed.

(** [replace] works character by character. *)
Lemma replace_get (old new : ascii) (s : string) (i : nat) :
  String.get i (PyStr.replace old new s)
  = option_map (fun c => if Ascii.eqb c old then new else c) (String.get i s).
Proof.
  revert i. induction s as [|c rest IH]; intros [|i]; simpl; auto.
Qed.

(** ** SeriesDecoder *)

Section DecoderFacts.

Variable py_int : string -> option Z.
Variable py_float : string -> option Q.

(** The loop appends one token per segment that holds a comma, in order. *)
Lemma parse_hr_loop_spec (segments : list string) (hr_values : list Z) :
  parse_hr_loop py_int segments hr_values
  = hr_values ++ map (hr_token py_int) (filter (PyStr.contains ",") segments).
Proof.
  revert hr_values.
  induction segments as [|segment rest IH]; intros hr_values; simpl.
  - now rewrite app_nil_r.
  - rewrite split_length_contains.
    destruct (PyStr.contains "," segment); simpl; [|apply IH].
    unfold hr_token at 1.
    destruct (py_int (nth 1 (PyStr.split "," segment) ""));
      rewrite IH, <- app_assoc; reflexivity.
Qed.

Lemma floats_of_Forall2 (xs : list string) (values : list Q) :
  floats_of py_float xs = Some values
  <-> Forall2 (fun x v => py_float x = Some v) xs values.
Proof.
  revert values. induction xs as [|x rest IH]; intros values; simpl.
  - split.
    + intros H. injection H as <-. constructor.
    + intros H. inversion H. reflexivity.
  - split.
    + destruct (py_float x) as [v|] eqn:Ex; [|discriminate].
      destruct (floats_of py_float rest) as [vs|] eqn:Er; [|discriminate].
      intros H. injection H as <-. constructor; [exact Ex|now apply IH].
    + intros H. inversion H as [|? v ? vs Hx Hrest]; subst.
      rewrite Hx. apply IH in Hrest. now rewrite Hrest.
Qed.

Lemma floats_of_rejects (xs : list string) :
  (exists x, In x xs /\ py_float x = None) -> floats_of py_float xs = None.
Proof.
  intros [x [Hin Hx]]. induction xs as [|y rest IH]; [contradiction|].
  simpl. destruct Hin as [->|Hin].
  - now rewrite Hx.
  - destruct (py_float y); [|reflexivity]. now rewrite (IH Hin).
Qed.

(** [floats_of] keeps the number of tokens. *)
Lemma floats_of_length (xs : list string) (values : list Q) :
  floats_of py_float xs = Some values -> List.length values = List.length xs.
Proof.
  intros H. apply floats_of_Forall2 in H.
  symmetry. eapply Forall2_length; eassumption.
Qed.

(** C5 (amended).  [parse_hr] splits the raw heart-rate string on [;] and
    yields exactly one integer per non-empty segment that holds a comma:
    the second comma-delimited field through [int], or 0 when [int] rejects
    it.  A non-empty segment without a comma yields nothing, so the number
    of tokens is the number of non-empty segments that hold a comma.  The
    decoder is a total function: no segment makes it fail. *)
Theorem parse_hr_one_token_per_pair (d : detail_data) :
  let segments :=
    filter PyStr.truthy (PyStr.split ";" (get_str (heart_rate d))) in
  let pairs := filter (PyStr.contains ",") segments in
  parse_hr py_int d = map (hr_token py_int) pairs
  /\ List.length (parse_hr py_int d) = List.length pairs
  /\ (forall segment hr_val,
        py_int (nth 1 (PyStr.split "," segment) "") = Some hr_val ->
        hr_token py_int segment = hr_val)
  /\ (forall segment,
        py_int (nth 1 (PyStr.split "," segment) "") = None ->
        hr_token py_int segment = 0%Z)
  /\ (forall segment,
        PyStr.contains "," segment = false ->
        parse_hr_loop py_int [segment] [] = []).
Proof.
  intros segments pairs.
  assert (Heq : parse_hr py_int d = map (hr_token py_int) pairs).
  { unfold parse_hr. subst pairs segments.
    destruct (get_str (heart_rate d)) as [|c rest] eqn:E.
    - reflexivity.
    - cbv beta iota delta [PyStr.truthy]. apply parse_hr_loop_spec. }
  split; [exact Heq|]. split; [now rewrite Heq, length_map|].
  repeat split.
  - intros segment hr_val H. unfold hr_token. now rewrite H.
  - intros segment H. unfold hr_token. now rewrite H.
  - intros segment H. rewrite parse_hr_loop_spec. simpl. now rewrite H.
Qed.

(** C6.  [parse_pace] replaces every comma by a period before it splits on
    [;], so no token holds a comma; the tokens cut to the target length are
    then converted together: when [float] accepts every one of them the
    pace series is their values in order, and when it rejects any of them
    the pace series is the target length of zeros. *)
Theorem parse_pace_policy (d : detail_data) (n : nat) :
  let normalized := PyStr.replace "," "." (get_str (pace d)) in
  let raw_paces := parse_pace d in
  (forall i,
      String.get i normalized
      = option_map (fun c => if Ascii.eqb c "," then "."%char else c)
                   (String.get i (get_str (pace d))))
  /\ raw_paces
     = map PyStr.strip
           (filter (fun v => PyStr.truthy (PyStr.strip v))
                   (PyStr.split ";" normalized))
  /\ Forall (fun token => PyStr.contains "," token = false) raw_paces
  /\ (forall values,
        Forall2 (fun token v => py_float token = Some v)
                (firstn n raw_paces) values ->
        process_pace py_float raw_paces n = values)
  /\ ((exists token, In token (firstn n raw_paces) /\ py_float token = None) ->
      process_pace py_float raw_paces n = repeat 0%Q n).
Proof.
  intros normalized raw_paces. split; [|split; [|split; [|split]]].
  - intros i. apply replace_get.
  - reflexivity.
  - subst raw_paces. unfold parse_pace. fold normalized.
    apply Forall_forall. intros token Hin.
    apply in_map_iff in Hin as [piece [<- Hin]].
    apply filter_In in Hin as [Hin _].
    destruct (PyStr.contains "," (PyStr.strip piece)) eqn:E; [|reflexivity].
    apply strip_chars in E.
    pose proof (split_piece_chars ";" "," normalized) as Hall.
    rewrite Forall_forall in Hall. specialize (Hall piece Hin E).
    subst normalized. rewrite replace_removes in Hall; [discriminate|].
    discriminate.
  - intros values H. apply floats_of_Forall2 in H.
    unfold process_pace. now rewrite H.
  - intros H. apply floats_of_rejects in H.
    unfold process_pace. now rewrite H.
Qed.

End DecoderFacts.

(** C5, as stated, fails: a non-empty segment without a comma yields no
    token.  The raw string [70;1,5] has two non-empty segments and decodes to
    the single token 5. *)
Lemma parse_hr_drops_segment_without_comma :
  let d := mk_detail None (Some "70;1,5") None in
  filter PyStr.truthy (PyStr.split ";" (get_str (heart_rate d))) = ["70"; "1,5"]
  /\ parse_hr Sample.decimal_int d = [5%Z]
  /\ List.length (parse_hr Sample.decimal_int d)
     <> List.length (filter PyStr.truthy (PyStr.split ";" (get_str (heart_rate d)))).
Proof.
  cbv zeta. split; [reflexivity|]. split; [reflexivity|].
  vm_compute. discriminate.
Qed.

(** ** HeartRateReconstructor *)

Lemma accumulate_hr_spec (diffs : list Z) (cumulative : Q) (current_hr : list Q) :
  accumulate_hr diffs cumulative current_hr
  = current_hr ++ running_totals cumulative diffs.
Proof.
  revert cumulative current_hr.
  induction diffs as [|d rest IH]; intros cumulative current_hr; simpl.
  - now rewrite app_nil_r.
  - rewrite IH, <- app_assoc. reflexivity.
Qed.

Lemma hr_differences_cons (first : Z) (rest : list Z) :
  hr_differences_of (first :: rest) = rest.
Proof.
  unfold hr_differences_of. destruct rest; reflexivity.
Qed.

Lemma running_totals_length (base : Q) (diffs : list Z) :
  List.length (running_totals base diffs) = List.length diffs.
Proof.
  revert base. induction diffs as [|d rest IH]; intros base; simpl; auto.
Qed.

(** Each running total is the one before it plus the next difference. *)
Lemma running_totals_step (diffs : list Z) (base : Q) (i : nat) :
  i < List.length diffs ->
  nth (S i) (base :: running_totals base diffs) 0%Q
  = (nth i (base :: running_totals base diffs) 0 + inject_Z (nth i diffs 0%Z))%Q.
Proof.
  revert base i. induction diffs as [|d rest IH]; intros base i Hi; simpl in Hi.
  - lia.
  - destruct i as [|i].
    + reflexivity.
    + exact (IH (base + inject_Z d)%Q i ltac:(lia)).
Qed.

(** The cumulative series before line 219 cuts or pads it. *)
Lemma reconstruct_hr_cons (first : Z) (rest : list Z) (n : nat) :
  reconstruct_hr (first :: rest) n
  = let series := inject_Z first :: running_totals (inject_Z first) rest in
    firstn n (series ++ repeat (last series 0%Q) n).
Proof.
  unfold reconstruct_hr. rewrite hr_differences_cons, accumulate_hr_spec.
  reflexivity.
Qed.

Lemma reconstruct_hr_length (hr_values : list Z) (n : nat) :
  List.length (reconstruct_hr hr_values n) = n.
Proof.
  unfold reconstruct_hr.
  rewrite length_firstn, length_app, repeat_length. lia.
Qed.

Lemma last_as_nth {A : Type} (l : list A) (d : A) :
  last l d = nth (List.length l - 1) l d.
Proof.
  induction l as [|a l IH]; [reflexivity|].
  destruct l as [|b l]; [reflexivity|].
  change (last (b :: l) d = nth (List.length l) (b :: l) d).
  rewrite IH. simpl. now rewrite Nat.sub_0_r.
Qed.

(** C1.  For a decoded heart-rate sequence with at least one token and a
    target length [n > 0], the reconstructed series has exactly [n] elements;
    element 0 is the first token; element [i > 0] inside the decoded range is
    element [i - 1] plus token [i]; every element past the decoded range
    equals the last computed value; and tokens 70, 5, -3 with target length 5
    give 70, 75, 72, 72, 72. *)
Theorem reconstruct_hr_spec (hr_values : list Z) (n : nat)
    (Hne : hr_values <> []) (Hn : 0 < n) :
  let current_hr := reconstruct_hr hr_values n in
  List.length current_hr = n
  /\ nth 0 current_hr 0%Q = inject_Z (nth 0 hr_values 0%Z)
  /\ (forall i, 0 < i -> i < n -> i < List.length hr_values ->
        nth i current_hr 0%Q
        = (nth (i - 1) current_hr 0 + inject_Z (nth i hr_values 0%Z))%Q)
  /\ (forall i, List.length hr_values <= i -> i < n ->
        nth i current_hr 0%Q = nth (List.length hr_values - 1) current_hr 0%Q)
  /\ reconstruct_hr [70; 5; -3]%Z 5 = [70; 75; 72; 72; 72]%Q.
Proof.
  intros current_hr.
  destruct hr_values as [|first rest]; [contradiction|].
  subst current_hr. rewrite reconstruct_hr_cons. cbv zeta.
  set (series := inject_Z first :: running_totals (inject_Z first) rest).
  assert (Hlen : List.length series = S (List.length rest)).
  { subst series. simpl. now rewrite running_totals_length. }
  assert (Hin : forall i, i < n -> i < List.length series ->
                  nth i (firstn n (series ++ repeat (last series 0%Q) n)) 0%Q
                  = nth i series 0%Q).
  { intros i Hi Hs. rewrite nth_firstn.
    apply Nat.ltb_lt in Hi. rewrite Hi. now apply app_nth1. }
  assert (Hout : forall i, i < n -> List.length series <= i ->
                  nth i (firstn n (series ++ repeat (last series 0%Q) n)) 0%Q
                  = last series 0%Q).
  { intros i Hi Hs. rewrite nth_firstn.
    pose proof Hi as Hb. apply Nat.ltb_lt in Hb. rewrite Hb.
    rewrite app_nth2 by lia. apply nth_repeat_lt. lia. }
  split; [|split; [|split; [|split]]].
  - rewrite length_firstn, length_app, repeat_length. lia.
  - rewrite Hin by lia. reflexivity.
  - intros i Hpos Hi Hdec. simpl in Hdec.
    rewrite !Hin by lia.
    destruct i as [|i]; [lia|].
    replace (S i - 1) with i by lia.
    subst series.
    exact (running_totals_step rest (inject_Z first) i ltac:(lia)).
  - intros i Hdec Hi. simpl in Hdec.
    replace (List.length (first :: rest) - 1) with (List.length rest)
      by (simpl; lia).
    rewrite Hout by lia. rewrite Hin by lia.
    rewrite last_as_nth, Hlen. simpl. now rewrite Nat.sub_0_r.
  - reflexivity.
Qed.

(** C1 at the tokens 70, 5, -3 and the target length 5. *)
Lemma reconstruct_hr_spec_witness :
  let current_hr := reconstruct_hr [70; 5; -3]%Z 5 in
  List.length current_hr = 5
  /\ nth 0 current_hr 0%Q = 70%Q
  /\ nth 4 current_hr 0%Q = nth 2 current_hr 0%Q.
Proof.
  pose proof (reconstruct_hr_spec [70; 5; -3]%Z 5
                ltac:(discriminate) ltac:(lia)) as H.
  cbv zeta in H. destruct H as [Hlen [H0 [_ [Hpad _]]]].
  split; [exact Hlen|]. split; [exact H0|].
  apply (Hpad 4); simpl; lia.
Defined.

(** ** Sums and the heart-rate variance *)

Lemma fold_left_Qplus (xs : list Q) (acc : Q) :
  (fold_left Qplus xs acc == acc + fold_right Qplus 0 xs)%Q.
Proof.
  revert acc. induction xs as [|x rest IH]; intros acc; simpl.
  - ring.
  - rewrite IH. ring.
Qed.

Lemma qsum_fold_right (xs : list Q) : (qsum xs == fold_right Qplus 0 xs)%Q.
Proof.
  unfold qsum. rewrite fold_left_Qplus. ring.
Qed.

Lemma fold_left_Zadd_inject (xs : list Z) (acc : Z) :
  (inject_Z (fold_left Z.add xs acc)
   == inject_Z acc + fold_right Qplus 0 (map inject_Z xs))%Q.
Proof.
  revert acc. induction xs as [|x rest IH]; intros acc; simpl.
  - ring.
  - rewrite IH, inject_Z_plus. ring.
Qed.

Lemma zsum_inject (xs : list Z) :
  (inject_Z (zsum xs) == fold_right Qplus 0 (map inject_Z xs))%Q.
Proof.
  unfold zsum. rewrite fold_left_Zadd_inject. ring.
Qed.

Lemma fold_right_Qplus_ext {A : Type} (f g : A -> Q) (xs : list A) :
  (forall x, In x xs -> f x == g x)%Q ->
  (fold_right Qplus 0 (map f xs) == fold_right Qplus 0 (map g xs))%Q.
Proof.
  induction xs as [|x rest IH]; intros H; simpl.
  - reflexivity.
  - rewrite (H x (or_introl eq_refl)), IH; [reflexivity|].
    intros y Hy. apply H. now right.
Qed.

(** The variance the code computes is the population variance of the
    deltas after the leading 0. *)
Lemma hr_variance_population (lead : Z) (diffs : list Z) :
  (hr_variance_of (lead :: diffs) == population_variance (map inject_Z diffs))%Q.
Proof.
  destruct diffs as [|d rest].
  - reflexivity.
  - set (diffs := d :: rest).
    change (hr_variance_of (lead :: diffs))
      with (qsum (map (fun x =>
                         (inject_Z x
                          - inject_Z (zsum diffs) / of_nat (List.length diffs)) ^ 2)
                      diffs)
            / of_nat (List.length diffs))%Q.
    unfold population_variance, mean.
    rewrite !length_map, map_map, qsum_fold_right.
    apply Qdiv_comp; [|reflexivity].
    apply fold_right_Qplus_ext. intros x _.
    rewrite zsum_inject. simpl. reflexivity.
Qed.

(** C4.  The reported variance is the population variance of the variation
    series without its leading synthetic 0; it is 0 when fewer than two
    deltas remain; and the variation series 0, 2, -2, 2, -2 has variance 4. *)
Theorem hr_variance_spec (hr_variations : list Z) :
  let diffs := skipn 1 hr_variations in
  (diffs <> [] ->
   hr_variance_of hr_variations == population_variance (map inject_Z diffs))%Q
  /\ (List.length diffs < 2 -> (hr_variance_of hr_variations == 0)%Q)
  /\ (hr_variance_of [0; 2; -2; 2; -2]%Z == 4)%Q.
Proof.
  intros diffs. split; [|split].
  - destruct hr_variations as [|lead rest]; [intros H; now elim H|].
    intros _. apply hr_variance_population.
  - destruct hr_variations as [|lead [|d [|d' rest]]]; intros H.
    + reflexivity.
    + reflexivity.
    + rewrite hr_variance_population.
      unfold population_variance, mean. simpl.
      unfold of_nat. simpl. field.
    + simpl in H. lia.
  - vm_compute. reflexivity.
Qed.

(** ** ZoneClassifier *)

Lemma Qlt_bool_iff (x y : Q) : Qlt_bool x y = true <-> (x < y)%Q.
Proof.
  unfold Qlt_bool. rewrite negb_true_iff.
  split.
  - intros H. apply Qnot_le_lt. intros Hle.
    apply Qle_bool_iff in Hle. congruence.
  - intros H. destruct (Qle_bool y x) eqn:E; [|reflexivity].
    apply Qle_bool_iff in E. exfalso. now apply (Qlt_not_le x y).
Qed.

Lemma in_band_iff (hr low high : Q) :
  in_band hr low high = true <-> (low <= hr /\ hr < high)%Q.
Proof.
  unfold in_band. rewrite andb_true_iff, Qle_bool_iff, Qlt_bool_iff. tauto.
Qed.

Lemma in_band_false (hr low high : Q) :
  in_band hr low high = false <-> ~ (low <= hr /\ hr < high)%Q.
Proof.
  rewrite <- in_band_iff. destruct (in_band hr low high); split; congruence.
Qed.

(** The inner loop counts the sample in its first band, if it has one. *)
Lemma count_sample_first_band (zones : list (string * (Q * Q))) (hr : Q)
    (zone_counts : list (string * nat)) :
  count_sample zones hr zone_counts
  = match first_band zones hr with
    | Some zone => incr zone zone_counts
    | None => zone_counts
    end.
Proof.
  induction zones as [|[zone [low high]] rest IH]; simpl; [reflexivity|].
  destruct (in_band hr low high); [reflexivity|exact IH].
Qed.

(** The first band holds the sample and no band listed before it does. *)
Lemma first_band_Some (zones : list (string * (Q * Q))) (hr : Q) (zone : string) :
  first_band zones hr = Some zone ->
  exists before low high after,
    zones = before ++ (zone, (low, high)) :: after
    /\ (low <= hr /\ hr < high)%Q
    /\ Forall (fun b => ~ (fst (snd b) <= hr /\ hr < snd (snd b))%Q) before.
Proof.
  induction zones as [|[z [low high]] rest IH]; simpl; [discriminate|].
  destruct (in_band hr low high) eqn:E.
  - intros H. injection H as <-.
    exists [], low, high, rest. split; [reflexivity|].
    split; [now apply in_band_iff|constructor].
  - intros H. destruct (IH H) as [before [l [h [after [Hz [Hin Hnot]]]]]].
    exists ((z, (low, high)) :: before), l, h, after.
    split; [now rewrite Hz|]. split; [exact Hin|].
    constructor; [now apply in_band_false|exact Hnot].
Qed.

(** A sample outside 50%..100% of [M] is in no band. *)
Lemma out_of_bands_no_band (M hr : Q) :
  out_of_bands M hr -> first_band (hr_zones M) hr = None.
Proof.
  unfold out_of_bands. intros H. simpl.
  repeat match goal with
         | |- context [in_band hr ?low ?high] =>
             let E := fresh "E" in
             destruct (in_band hr low high) eqn:E;
             [apply in_band_iff in E; exfalso; lra|clear E]
         end.
  reflexivity.
Qed.

Lemma incr_map (names : list string) (f : string -> nat) (zone : string) :
  NoDup names ->
  incr zone (map (fun name => (name, f name)) names)
  = map (fun name => (name, if String.eqb name zone then S (f name) else f name))
        names.
Proof.
  induction names as [|name rest IH]; intros Hnd; simpl; [reflexivity|].
  inversion Hnd as [|? ? Hnotin Hrest]; subst.
  destruct (String.eqb name zone) eqn:E.
  - f_equal. apply map_ext_in. intros other Hin.
    apply String.eqb_eq in E. subst zone.
    destruct (String.eqb other name) eqn:E'; [|reflexivity].
    apply String.eqb_eq in E'. subst other. contradiction.
  - f_equal. now apply IH.
Qed.

Lemma zone_names_NoDup : NoDup zone_names.
Proof.
  unfold zone_names.
  repeat (constructor; [simpl; intuition discriminate|]). constructor.
Qed.

Lemma count_in_cons (M : Q) (zone : string) (hr : Q) (rest : list Q) :
  count_in M zone (hr :: rest)
  = (match first_band (hr_zones M) hr with
     | Some z => if String.eqb z zone then 1 else 0
     | None => 0
     end) + count_in M zone rest.
Proof.
  unfold count_in. cbn [filter].
  destruct (first_band (hr_zones M) hr) as [z|]; [|reflexivity].
  destruct (String.eqb z zone); reflexivity.
Qed.

Lemma fold_count_sample (M : Q) (current_hr : list Q) (f : string -> nat) :
  fold_left (fun zone_counts hr => count_sample (hr_zones M) hr zone_counts)
            current_hr (map (fun name => (name, f name)) zone_names)
  = map (fun name => (name, f name + count_in M name current_hr)) zone_names.
Proof.
  revert f. induction current_hr as [|hr rest IH]; intros f.
  - cbn [fold_left]. apply map_ext. intros name.
    unfold count_in. cbn [filter List.length]. now rewrite Nat.add_0_r.
  - cbn [fold_left]. rewrite count_sample_first_band.
    destruct (first_band (hr_zones M) hr) as [z|] eqn:E.
    + rewrite incr_map by apply zone_names_NoDup. rewrite IH.
      apply map_ext. intros name. rewrite count_in_cons, E.
      rewrite (String.eqb_sym z name).
      destruct (String.eqb name z); f_equal; lia.
    + rewrite IH. apply map_ext. intros name. now rewrite count_in_cons, E.
Qed.

(** Each band's count is the number of samples whose first band it is. *)
Lemma zone_counts_spec (M : Q) (current_hr : list Q) :
  zone_counts_of M current_hr
  = map (fun name => (name, count_in M name current_hr)) zone_names.
Proof.
  unfold zone_counts_of.
  change (map (fun z => (fst z, 0)) (hr_zones M))
    with (map (fun name => (name, 0)) zone_names).
  apply fold_count_sample.
Qed.

(** The five counts together never exceed the number of samples. *)
Lemma zone_counts_total (M : Q) (current_hr : list Q) :
  list_sum (map snd (zone_counts_of M current_hr)) <= List.length current_hr.
Proof.
  rewrite zone_counts_spec, map_map. cbn [snd zone_names map list_sum fold_right].
  induction current_hr as [|hr rest IH]; [simpl; lia|].
  rewrite !count_in_cons. cbn [List.length].
  destruct (first_band (hr_zones M) hr) as [z|] eqn:E; cbv beta iota; [|lia].
  apply first_band_Some in E as [before [low [high [after [Hz _]]]]].
  assert (Hin : In z zone_names).
  { change zone_names with (map fst (hr_zones M)).
    rewrite Hz, map_app. apply in_or_app. right. now left. }
  unfold zone_names in Hin. cbn [In] in Hin.
  repeat (destruct Hin as [<-|Hin]; [cbn; lia|]). contradiction.
Qed.

Lemma count_in_out_of_bands (M : Q) (zone : string) (current_hr : list Q) :
  Forall (out_of_bands M) current_hr -> count_in M zone current_hr = 0.
Proof.
  induction 1 as [|hr rest Hhr _ IH]; [reflexivity|].
  now rewrite count_in_cons, (out_of_bands_no_band M hr Hhr), IH.
Qed.

(** Whether the first band of a sample is the band of a given label, for
    each of the five labels: the bands do not overlap, so it is whether the
    sample lies in that band. *)
Lemma first_band_is_band (M hr : Q) :
  let first_is zone := match first_band (hr_zones M) hr with
                 | Some z => String.eqb z zone
                 | None => false
                 end in
  first_is "Z1 (50-60%)" = in_band hr ((5 # 10) * M) ((6 # 10) * M)
  /\ first_is "Z2 (60-70%)" = in_band hr ((6 # 10) * M) ((7 # 10) * M)
  /\ first_is "Z3 (70-80%)" = in_band hr ((7 # 10) * M) ((8 # 10) * M)
  /\ first_is "Z4 (80-90%)" = in_band hr ((8 # 10) * M) ((9 # 10) * M)
  /\ first_is "Z5 (90-100%)" = in_band hr ((9 # 10) * M) M.
Proof.
  cbv zeta. cbn [hr_zones first_band].
  destruct (in_band hr ((5 # 10) * M) ((6 # 10) * M)) eqn:E1;
  destruct (in_band hr ((6 # 10) * M) ((7 # 10) * M)) eqn:E2;
  destruct (in_band hr ((7 # 10) * M) ((8 # 10) * M)) eqn:E3;
  destruct (in_band hr ((8 # 10) * M) ((9 # 10) * M)) eqn:E4;
  destruct (in_band hr ((9 # 10) * M) M) eqn:E5;
  try (repeat split; reflexivity);
  exfalso;
  repeat match goal with
         | H : in_band _ _ _ = true |- _ => apply in_band_iff in H
         | H : in_band _ _ _ = false |- _ => clear H
         end;
  lra.
Qed.

Lemma count_in_band_count (M : Q) (current_hr : list Q) :
  map (fun name => (name, count_in M name current_hr)) zone_names
  = band_counts M current_hr.
Proof.
  assert (Hc : forall zone low high,
             (forall hr, match first_band (hr_zones M) hr with
                         | Some z => String.eqb z zone
                         | None => false
                         end = in_band hr low high) ->
             count_in M zone current_hr = band_count current_hr low high).
  { intros zone low high H. unfold count_in, band_count. f_equal.
    now apply filter_ext. }
  unfold band_counts, zone_names. cbn [map].
  rewrite (Hc "Z1 (50-60%)" _ _ (fun hr => proj1 (first_band_is_band M hr))).
  rewrite (Hc "Z2 (60-70%)" _ _
              (fun hr => proj1 (proj2 (first_band_is_band M hr)))).
  rewrite (Hc "Z3 (70-80%)" _ _
              (fun hr => proj1 (proj2 (proj2 (first_band_is_band M hr))))).
  rewrite (Hc "Z4 (80-90%)" _ _
              (fun hr => proj1 (proj2 (proj2 (proj2 (first_band_is_band M hr)))))).
  rewrite (Hc "Z5 (90-100%)" _ _
              (fun hr => proj2 (proj2 (proj2 (proj2 (first_band_is_band M hr)))))).
  reflexivity.
Qed.

(** No band exactly when the sample is below 50% or at or above 100%. *)
Lemma no_band_iff (M hr : Q) :
  first_band (hr_zones M) hr = None <-> out_of_bands M hr.
Proof.
  split; [|apply out_of_bands_no_band].
  intros Hnone. unfold out_of_bands.
  destruct (Qlt_le_dec hr ((5 # 10) * M)) as [H|Hlow]; [now left|].
  destruct (Qlt_le_dec hr M) as [Hhigh|H]; [|now right].
  exfalso. cbn [hr_zones first_band] in Hnone.
  destruct (in_band hr ((5 # 10) * M) ((6 # 10) * M)) eqn:E1; [discriminate|].
  destruct (in_band hr ((6 # 10) * M) ((7 # 10) * M)) eqn:E2; [discriminate|].
  destruct (in_band hr ((7 # 10) * M) ((8 # 10) * M)) eqn:E3; [discriminate|].
  destruct (in_band hr ((8 # 10) * M) ((9 # 10) * M)) eqn:E4; [discriminate|].
  destruct (in_band hr ((9 # 10) * M) M) eqn:E5; [discriminate|].
  apply in_band_false in E1, E2, E3, E4, E5.
  assert (H6 : ((6 # 10) * M <= hr)%Q).
  { destruct (Qlt_le_dec hr ((6 # 10) * M)) as [H|H]; [|exact H].
    exfalso. apply E1. split; assumption. }
  assert (H7 : ((7 # 10) * M <= hr)%Q).
  { destruct (Qlt_le_dec hr ((7 # 10) * M)) as [H|H]; [|exact H].
    exfalso. apply E2. split; assumption. }
  assert (H8 : ((8 # 10) * M <= hr)%Q).
  { destruct (Qlt_le_dec hr ((8 # 10) * M)) as [H|H]; [|exact H].
    exfalso. apply E3. split; assumption. }
  assert (H9 : ((9 # 10) * M <= hr)%Q).
  { destruct (Qlt_le_dec hr ((9 # 10) * M)) as [H|H]; [|exact H].
    exfalso. apply E4. split; assumption. }
  apply E5. split; assumption.
Qed.

(** C3.  For a maximum [M] and a non-empty heart-rate series: the count of
    each of the five bands [50,60)%, [60,70)%, [70,80)%, [80,90)% and
    [90,100)% of [M] is the number of samples [hr] with [low <= hr < high]
    for the bounds of that band, which is also the number of samples whose
    first band, in the listed order, it is; so a sample is counted at most
    once and the counts together do not exceed the number of samples; a
    sample has no band exactly when it is below 50% of [M] or at or above
    100% of [M]; each percentage is the band's count divided by the number of
    samples, times 100; and when every sample is below 50% or at or above
    100% of [M] the five percentages sum to 0. *)
Theorem zone_classification (M : Q) (current_hr : list Q)
    (Hne : current_hr <> []) :
  let n := List.length current_hr in
  zone_counts_of M current_hr
  = map (fun z => (fst z, count_in M (fst z) current_hr)) (hr_zones M)
  /\ (forall hr zone,
        first_band (hr_zones M) hr = Some zone ->
        exists before low high after,
          hr_zones M = before ++ (zone, (low, high)) :: after
          /\ (low <= hr /\ hr < high)%Q
          /\ Forall (fun b => ~ (fst (snd b) <= hr /\ hr < snd (snd b))%Q) before)
  /\ list_sum (map snd (zone_counts_of M current_hr)) <= n
  /\ (forall hr, out_of_bands M hr -> first_band (hr_zones M) hr = None)
  /\ zone_percentages_of M current_hr n
     = map (fun z => (fst z,
                      (of_nat (count_in M (fst z) current_hr) / of_nat n * 100)%Q))
           (hr_zones M)
  /\ (Forall (out_of_bands M) current_hr ->
      (qsum (map snd (zone_percentages_of M current_hr n)) == 0)%Q)
  /\ zone_counts_of M current_hr
     = [ ("Z1 (50-60%)", band_count current_hr ((5 # 10) * M) ((6 # 10) * M))%Q;
         ("Z2 (60-70%)", band_count current_hr ((6 # 10) * M) ((7 # 10) * M))%Q;
         ("Z3 (70-80%)", band_count current_hr ((7 # 10) * M) ((8 # 10) * M))%Q;
         ("Z4 (80-90%)", band_count current_hr ((8 # 10) * M) ((9 # 10) * M))%Q;
         ("Z5 (90-100%)", band_count current_hr ((9 # 10) * M) M)%Q ]
  /\ (forall hr low high,
        in_band hr low high = true <-> (low <= hr /\ hr < high)%Q)
  /\ (forall hr, first_band (hr_zones M) hr = None <-> out_of_bands M hr)
  /\ zone_percentages_of M current_hr n
     = map (fun zc => (fst zc, (of_nat (snd zc) / of_nat n * 100)%Q))
           (band_counts M current_hr).
Proof.
  intros n.
  split; [|split; [|split; [|split; [|split; [|split; [|split;
    [|split; [|split]]]]]]]].
  - rewrite zone_counts_spec. reflexivity.
  - intros hr zone. apply first_band_Some.
  - apply zone_counts_total.
  - apply out_of_bands_no_band.
  - unfold zone_percentages_of. rewrite zone_counts_spec. reflexivity.
  - intros Hall. unfold zone_percentages_of. rewrite zone_counts_spec.
    cbn [zone_names map fst snd].
    rewrite !(count_in_out_of_bands M _ current_hr Hall).
    change (of_nat 0) with 0%Q. unfold qsum. cbn [fold_left].
    unfold Qdiv. ring.
  - rewrite zone_counts_spec. apply count_in_band_count.
  - apply in_band_iff.
  - apply no_band_iff.
  - unfold zone_percentages_of.
    now rewrite zone_counts_spec, count_in_band_count.
Qed.

(** C3 at [M = 196], where the bands start at 98, 117.6, 137.2, 156.8 and
    176.4: one sample in each band, 97 and 196 in none, 98 in the first and
    195 in the last. *)
Lemma zone_classification_witness :
  zone_counts_of 196 [100; 120; 140; 160; 180; 97; 196; 98; 195]%Q
  = [("Z1 (50-60%)", 2); ("Z2 (60-70%)", 1); ("Z3 (70-80%)", 1);
     ("Z4 (80-90%)", 1); ("Z5 (90-100%)", 2)]
  /\ (qsum (map snd (zone_percentages_of 196 [50; 196]%Q 2)) == 0)%Q.
Proof.
  split.
  - destruct (zone_classification 196
                [100; 120; 140; 160; 180; 97; 196; 98; 195]%Q
                ltac:(discriminate))
      as [_ [_ [_ [_ [_ [_ [Hcounts _]]]]]]].
    rewrite Hcounts. reflexivity.
  - destruct (zone_classification 196 [50; 196]%Q ltac:(discriminate))
      as [_ [_ [_ [_ [_ [Hsum _]]]]]].
    apply Hsum. unfold out_of_bands.
    constructor; [left; lra|]. constructor; [right; lra|]. constructor.
Defined.

(** ** EffortRestSegmenter *)

Lemma merge_run_same (flag : bool) (d len : nat) (rs : list (bool * nat)) :
  merge_run flag d (merge_run flag len rs) = merge_run flag (d + len) rs.
Proof.
  destruct rs as [|[b n] rs]; destruct flag; try destruct b; simpl;
    rewrite ?Nat.add_assoc; reflexivity.
Qed.

Lemma merge_run_other (flag flag' : bool) (d len : nat) (rs : list (bool * nat)) :
  flag' <> flag ->
  merge_run flag' d (merge_run flag len rs) = (flag', d) :: merge_run flag len rs.
Proof.
  destruct rs as [|[b n] rs]; destruct flag, flag'; try destruct b;
    intros H; try reflexivity; now elim H.
Qed.

Lemma run_lengths_cons (flag b : bool) (n : nat) (rs : list (bool * nat)) :
  run_lengths flag ((b, n) :: rs)
  = if Bool.eqb b flag then n :: run_lengths flag rs else run_lengths flag rs.
Proof.
  unfold run_lengths. simpl. destruct (Bool.eqb b flag); reflexivity.
Qed.

(** The loop from any state: the open run of the state is merged into the
    maximal runs of the samples still to come. *)
Lemma seg_fold_runs (paces : list Q) (s : segmenter) :
  seg_flush (fold_left seg_step paces s)
  = let rs := merge_run (flag_of (state s)) (duration s)
                        (runs (map is_effort paces)) in
    (effort_durations s ++ run_lengths true rs,
     rest_durations s ++ run_lengths false rs).
Proof.
  revert s. induction paces as [|p rest IH]; intros [efforts rests st d].
  - destruct st; simpl; now rewrite app_nil_r.
  - cbn [fold_left map runs]. rewrite IH. cbv zeta.
    unfold seg_step, is_effort.
    cbn [state duration effort_durations rest_durations].
    destruct (Qlt_bool 0 p); destruct st;
      cbn [state duration effort_durations rest_durations flag_of].
    + rewrite (merge_run_other true false) by discriminate.
      rewrite !run_lengths_cons. simpl. now rewrite <- app_assoc.
    + now rewrite merge_run_same.
    + now rewrite merge_run_same.
    + rewrite (merge_run_other false true) by discriminate.
      rewrite !run_lengths_cons. simpl. now rewrite <- app_assoc.
Qed.

(** The segmenter on any non-empty series: the maximal runs by [pace > 0],
    behind an open run of length 0 in the state chosen from the first
    sample. *)
Lemma segment_runs (first : Q) (rest : list Q) :
  segment (first :: rest)
  = let rs := merge_run (negb (Qeq_bool first 0)) 0
                        (runs (map is_effort (first :: rest))) in
    Some (run_lengths true rs, run_lengths false rs).
Proof.
  unfold segment. rewrite seg_fold_runs. unfold seg_init.
  cbn [state duration effort_durations rest_durations app].
  destruct (Qeq_bool first 0); reflexivity.
Qed.

Lemma nonneg_first_state (p : Q) :
  (0 <= p)%Q -> negb (Qeq_bool p 0) = is_effort p.
Proof.
  intros Hp. unfold is_effort.
  destruct (Qeq_bool p 0) eqn:E; simpl; symmetry.
  - apply Qeq_bool_iff in E.
    destruct (Qlt_bool 0 p) eqn:L; [|reflexivity].
    apply Qlt_bool_iff in L. lra.
  - apply Qlt_bool_iff.
    assert (~ p == 0)%Q by (intros H; apply Qeq_bool_iff in H; congruence).
    lra.
Qed.

(** With a first sample that is not negative the outputs are exactly the
    maximal runs. *)
Lemma segment_runs_nonneg (first : Q) (rest : list Q) :
  (0 <= first)%Q ->
  segment (first :: rest)
  = let rs := runs (map is_effort (first :: rest)) in
    Some (run_lengths true rs, run_lengths false rs).
Proof.
  intros Hp. rewrite segment_runs. cbv zeta.
  rewrite (nonneg_first_state first Hp).
  cbn [map runs]. now rewrite merge_run_same.
Qed.

(** With a negative first sample an effort run of length 0 is recorded in
    front of them. *)
Lemma segment_runs_negative (first : Q) (rest : list Q) :
  (first < 0)%Q ->
  segment (first :: rest)
  = let rs := runs (map is_effort (first :: rest)) in
    Some (0 :: run_lengths true rs, run_lengths false rs).
Proof.
  intros Hp. rewrite segment_runs. cbv zeta.
  assert (Hz : Qeq_bool first 0 = false).
  { destruct (Qeq_bool first 0) eqn:E; [|reflexivity].
    apply Qeq_bool_iff in E. lra. }
  assert (He : is_effort first = false).
  { unfold is_effort. destruct (Qlt_bool 0 first) eqn:E; [|reflexivity].
    apply Qlt_bool_iff in E. lra. }
  rewrite Hz. cbn [map runs negb]. rewrite He.
  rewrite (merge_run_other false true) by discriminate.
  rewrite !run_lengths_cons. reflexivity.
Qed.

(** The total length of the runs of either flag. *)
Lemma run_lengths_total (rs : list (bool * nat)) :
  list_sum (run_lengths true rs) + list_sum (run_lengths false rs)
  = list_sum (map snd rs).
Proof.
  induction rs as [|[b n] rs IH]; [reflexivity|].
  rewrite !run_lengths_cons. destruct b; simpl in *; lia.
Qed.

Lemma merge_run_total (flag : bool) (len : nat) (rs : list (bool * nat)) :
  list_sum (map snd (merge_run flag len rs)) = len + list_sum (map snd rs).
Proof.
  destruct rs as [|[b n] rs]; simpl; [reflexivity|].
  destruct (Bool.eqb b flag); simpl; lia.
Qed.

Lemma runs_total (flags : list bool) :
  list_sum (map snd (runs flags)) = List.length flags.
Proof.
  induction flags as [|flag rest IH]; simpl; [reflexivity|].
  now rewrite merge_run_total, IH.
Qed.

Lemma merge_run_positive (flag : bool) (len : nat) (rs : list (bool * nat)) :
  1 <= len -> Forall (fun r => 1 <= snd r) rs ->
  Forall (fun r => 1 <= snd r) (merge_run flag len rs).
Proof.
  intros Hlen Hrs. destruct rs as [|[b n] rs]; simpl.
  - constructor; [exact Hlen|constructor].
  - destruct (Bool.eqb b flag).
    + inversion Hrs; subst. constructor; [simpl; lia|assumption].
    + constructor; [exact Hlen|exact Hrs].
Qed.

Lemma runs_positive (flags : list bool) :
  Forall (fun r => 1 <= snd r) (runs flags).
Proof.
  induction flags as [|flag rest IH]; simpl; [constructor|].
  now apply merge_run_positive.
Qed.

Lemma run_lengths_positive (flag : bool) (rs : list (bool * nat)) :
  Forall (fun r => 1 <= snd r) rs -> Forall (fun d => 1 <= d) (run_lengths flag rs).
Proof.
  induction 1 as [|[b n] rs Hn _ IH]; [constructor|].
  rewrite run_lengths_cons. destruct (Bool.eqb b flag); [constructor|]; assumption.
Qed.

Lemma merge_run_not_nil (flag : bool) (len : nat) (rs : list (bool * nat)) :
  merge_run flag len rs <> [].
Proof.
  destruct rs as [|[b n] rs]; simpl; [discriminate|].
  destruct (Bool.eqb b flag); discriminate.
Qed.

Lemma run_lengths_not_both_nil (rs : list (bool * nat)) :
  rs <> [] -> run_lengths true rs <> [] \/ run_lengths false rs <> [].
Proof.
  destruct rs as [|[[|] n] rs]; [contradiction| |]; intros _;
    rewrite !run_lengths_cons; simpl; [left|right]; discriminate.
Qed.

(** Runs of the negated flags are the runs with the flags negated. *)
Lemma merge_run_negb (flag : bool) (len : nat) (rs : list (bool * nat)) :
  merge_run (negb flag) len (map (fun r => (negb (fst r), snd r)) rs)
  = map (fun r => (negb (fst r), snd r)) (merge_run flag len rs).
Proof.
  destruct rs as [|[b n] rs]; [reflexivity|].
  destruct flag, b; reflexivity.
Qed.

Lemma runs_negb (flags : list bool) :
  runs (map negb flags) = map (fun r => (negb (fst r), snd r)) (runs flags).
Proof.
  induction flags as [|flag rest IH]; simpl; [reflexivity|].
  now rewrite IH, merge_run_negb.
Qed.

Lemma run_lengths_negb (rs : list (bool * nat)) :
  run_lengths true (map (fun r => (negb (fst r), snd r)) rs) = run_lengths false rs.
Proof.
  induction rs as [|[b n] rs IH]; [reflexivity|].
  cbn [map fst snd]. rewrite !run_lengths_cons, IH. destruct b; reflexivity.
Qed.

(** On samples that are not negative, a rest sample is one that is not an
    effort sample. *)
Lemma runs_where_rest_nonneg (paces : list Q) :
  Forall (fun p => 0 <= p)%Q paces ->
  runs_where is_rest paces = run_lengths false (runs (map is_effort paces)).
Proof.
  intros Hall. unfold runs_where.
  replace (map is_rest paces) with (map negb (map is_effort paces)).
  - now rewrite runs_negb, run_lengths_negb.
  - rewrite map_map. apply map_ext_in. intros p Hin.
    rewrite Forall_forall in Hall. specialize (Hall p Hin).
    unfold is_rest. rewrite <- (nonneg_first_state p Hall).
    now rewrite negb_involutive.
Qed.

(** A series of positive samples is one effort run. *)
Lemma runs_all_positive (first : Q) (rest : list Q) :
  Forall (fun p => 0 < p)%Q (first :: rest) ->
  runs (map is_effort (first :: rest)) = [(true, List.length (first :: rest))].
Proof.
  revert first. induction rest as [|p rest IH]; intros first Hall;
    inversion Hall as [|? ? Hfirst Hrest]; subst.
  - simpl. unfold is_effort.
    apply Qlt_bool_iff in Hfirst. now rewrite Hfirst.
  - change (runs (map is_effort (first :: p :: rest)))
      with (merge_run (is_effort first) 1 (runs (map is_effort (p :: rest)))).
    rewrite (IH p Hrest). unfold is_effort.
    apply Qlt_bool_iff in Hfirst. now rewrite Hfirst.
Qed.

Lemma of_nat_list_sum (ds : list nat) :
  (of_nat (list_sum ds) == fold_right Qplus 0 (map of_nat ds))%Q.
Proof.
  unfold of_nat. induction ds as [|d rest IH]; simpl; [reflexivity|].
  rewrite Nat2Z.inj_add, inject_Z_plus, IH. reflexivity.
Qed.

(** [average_duration] is the arithmetic mean of a non-empty list. *)
Lemma average_duration_mean (ds : list nat) :
  ds <> [] -> (average_duration ds == mean (map of_nat ds))%Q.
Proof.
  destruct ds as [|d rest]; [contradiction|]. intros _.
  unfold average_duration, mean.
  rewrite of_nat_list_sum, length_map. reflexivity.
Qed.

(** *** The segmenter on every float *)

Section SegmenterByFacts.

Variable sample : Type.
Variable eq0 : sample -> bool.
Variable gt0 : sample -> bool.

(** The loop from any state, for any two tests. *)
Lemma seg_fold_runs_by (paces : list sample) (s : segmenter) :
  seg_flush (fold_left (seg_step_by sample gt0) paces s)
  = let rs := merge_run (flag_of (state s)) (duration s) (runs (map gt0 paces)) in
    (effort_durations s ++ run_lengths true rs,
     rest_durations s ++ run_lengths false rs).
Proof.
  revert s. induction paces as [|p rest IH]; intros [efforts rests st d].
  - destruct st; simpl; now rewrite app_nil_r.
  - cbn [fold_left map runs]. rewrite IH. cbv zeta.
    unfold seg_step_by.
    cbn [state duration effort_durations rest_durations].
    destruct (gt0 p); destruct st;
      cbn [state duration effort_durations rest_durations flag_of].
    + rewrite (merge_run_other true false) by discriminate.
      rewrite !run_lengths_cons. simpl. now rewrite <- app_assoc.
    + now rewrite merge_run_same.
    + now rewrite merge_run_same.
    + rewrite (merge_run_other false true) by discriminate.
      rewrite !run_lengths_cons. simpl. now rewrite <- app_assoc.
Qed.

(** The outputs on any non-empty series: the maximal runs by [p > 0], behind
    an open run of length 0 in the state chosen by [p == 0] on the first
    sample. *)
Lemma segment_by_runs (first : sample) (rest : list sample) :
  segment_by sample eq0 gt0 (first :: rest)
  = let rs := merge_run (negb (eq0 first)) 0
                        (runs (map gt0 (first :: rest))) in
    Some (run_lengths true rs, run_lengths false rs).
Proof.
  unfold segment_by. rewrite seg_fold_runs_by. unfold seg_init_by.
  cbn [state duration effort_durations rest_durations app].
  destruct (eq0 first); reflexivity.
Qed.

End SegmenterByFacts.

(** A list of flags that are all [true] is one run. *)
Lemma runs_all_true (flags : list bool) :
  flags <> [] -> Forall (fun flag => flag = true) flags ->
  runs flags = [(true, List.length flags)].
Proof.
  induction flags as [|flag rest IH]; [contradiction|].
  intros _ Hall. inversion Hall as [|? ? Hflag Hrest]; subst.
  destruct rest as [|next rest]; [reflexivity|].
  cbn [runs] in *. rewrite IH; [reflexivity|discriminate|exact Hrest].
Qed.

(** For a float that is [>= 0], [> 0] is the negation of [== 0]. *)
Lemma float_ge0_tests (p : pyfloat) :
  float_ge0 p = true -> negb (float_eq0 p) = float_gt0 p.
Proof.
  destruct p as [q| | |]; cbn [float_ge0 float_eq0 float_gt0 negb];
    try discriminate; [|reflexivity].
  intros H. apply Qle_bool_iff in H. now apply nonneg_first_state.
Qed.

(** A float that is [> 0] is not [== 0]. *)
Lemma float_gt0_not_eq0 (p : pyfloat) :
  float_gt0 p = true -> float_eq0 p = false.
Proof.
  destruct p as [q| | |]; cbn [float_eq0 float_gt0]; try reflexivity.
  intros H. apply Qlt_bool_iff in H.
  destruct (Qeq_bool q 0) eqn:E; [|reflexivity].
  apply Qeq_bool_iff in E. lra.
Qed.

(** The segmenter of the pipeline is the segmenter on floats at finite
    samples. *)
Lemma fold_finite (paces : list Q) (s : segmenter) :
  fold_left (seg_step_by pyfloat float_gt0) (map finite paces) s
  = fold_left seg_step paces s.
Proof.
  revert s. induction paces as [|q rest IH]; intros s; [reflexivity|].
  cbn [map fold_left]. rewrite IH. reflexivity.
Qed.

Lemma segment_finite (paces : list Q) :
  segment paces = segment_float (map finite paces).
Proof.
  destruct paces as [|first rest]; [reflexivity|].
  unfold segment, segment_float, segment_by. cbn [map].
  change (finite first :: map finite rest) with (map finite (first :: rest)).
  rewrite fold_finite. reflexivity.
Qed.

(** C2 (amended).  For every non-empty pace series the segmenter starts idle
    exactly when the first sample equals 0 and in effort otherwise, and the
    average of a non-empty list of durations is its arithmetic mean and that
    of an empty list is 0.  When every sample is >= 0 (none is negative and
    none is NaN), [effort_durations] holds the lengths of the maximal runs of
    samples with pace > 0 and [rest_durations] those of the maximal runs of
    samples with pace = 0, in order, the open run included.  The series
    0, 0, 5, 5, 5, 0 gives rests 2, 1 and efforts 3 with averages 3 and 1.5,
    and a series of samples > 0 gives one effort run of its whole length and
    no rest run, with an average rest of 0.  The segmenter of the pipeline is
    this one on finite samples. *)
Theorem segmenter_runs (first : pyfloat) (rest : list pyfloat) :
  let paces := first :: rest in
  (state (seg_init_by pyfloat float_eq0 first) = idle <-> float_eq0 first = true)
  /\ (state (seg_init_by pyfloat float_eq0 first) = effort
      <-> float_eq0 first = false)
  /\ (forall durations, durations <> [] ->
        (average_duration durations == mean (map of_nat durations))%Q)
  /\ average_duration [] = 0%Q
  /\ (Forall (fun p => float_ge0 p = true) paces ->
      segment_float paces
      = Some (runs_where_by pyfloat float_gt0 paces,
              runs_where_by pyfloat float_eq0 paces))
  /\ (Forall (fun p => float_gt0 p = true) paces ->
      segment_float paces = Some ([List.length paces], []))
  /\ segment_float (map finite [0; 0; 5; 5; 5; 0]%Q) = Some ([3], [2; 1])
  /\ Qeq (average_duration [3]) 3%Q
  /\ Qeq (average_duration [2; 1]) (3 # 2)%Q
  /\ (forall finite_paces,
        segment finite_paces = segment_float (map finite finite_paces)).
Proof.
  intros paces.
  split; [|split; [|split; [|split; [|split; [|split]]]]].
  - unfold seg_init_by. cbn [state].
    destruct (float_eq0 first); split; congruence.
  - unfold seg_init_by. cbn [state].
    destruct (float_eq0 first); split; congruence.
  - exact average_duration_mean.
  - reflexivity.
  - intros Hall. subst paces. unfold segment_float.
    rewrite segment_by_runs. cbv zeta.
    inversion Hall as [|? ? Hfirst _]; subst.
    rewrite (float_ge0_tests first Hfirst).
    cbn [map runs]. rewrite merge_run_same.
    change (merge_run (float_gt0 first) (0 + 1) (runs (map float_gt0 rest)))
      with (runs (map float_gt0 (first :: rest))).
    unfold runs_where_by.
    replace (map float_eq0 (first :: rest))
      with (map negb (map float_gt0 (first :: rest))).
    + now rewrite runs_negb, run_lengths_negb.
    + rewrite map_map. apply map_ext_in. intros p Hin.
      rewrite Forall_forall in Hall.
      rewrite <- (float_ge0_tests p (Hall p Hin)). apply negb_involutive.
  - intros Hall. subst paces. unfold segment_float.
    rewrite segment_by_runs. cbv zeta.
    inversion Hall as [|? ? Hfirst _]; subst.
    rewrite (float_gt0_not_eq0 first Hfirst).
    rewrite (runs_all_true (map float_gt0 (first :: rest)));
      [|discriminate
       |apply Forall_forall; intros flag Hin;
        apply in_map_iff in Hin as [p [<- Hin]];
        rewrite Forall_forall in Hall; now apply Hall].
    rewrite length_map. reflexivity.
  - split; [reflexivity|]. split; [vm_compute; reflexivity|].
    split; [vm_compute; reflexivity|]. exact segment_finite.
Qed.

(** C2 (amended) on the series 0, 0, 5, 5, 5, 0 and on a series that ends
    with an infinite pace. *)
Lemma segmenter_runs_witness :
  segment_float (map finite [0; 0; 5; 5; 5; 0]%Q)
  = Some (runs_where_by pyfloat float_gt0 (map finite [0; 0; 5; 5; 5; 0]%Q),
          runs_where_by pyfloat float_eq0 (map finite [0; 0; 5; 5; 5; 0]%Q))
  /\ segment_float [finite 2; pos_inf] = Some ([2], []).
Proof.
  split.
  - destruct (segmenter_runs (finite 0) (map finite [0; 5; 5; 5; 0]%Q))
      as [_ [_ [_ [_ [Hruns _]]]]].
    apply Hruns. repeat (constructor; [reflexivity|]). constructor.
  - destruct (segmenter_runs (finite 2) [pos_inf])
      as [_ [_ [_ [_ [_ [Hpos _]]]]]].
    apply Hpos. repeat (constructor; [reflexivity|]). constructor.
Defined.

(** C2, as stated for every non-empty pace series, fails on a series with a
    negative sample.  For the one-sample series -1 the segmenter starts in
    effort, records an effort run of length 0 and a rest run of length 1,
    although the series has no sample with pace > 0 and none with pace = 0.
    For the series 1, -1, 1 it records a rest run of length 1 although no
    sample has pace = 0. *)
Lemma segmenter_negative_sample :
  segment [-1]%Q = Some ([0], [1])
  /\ runs_where is_effort [-1]%Q = []
  /\ runs_where is_rest [-1]%Q = []
  /\ segment [-1]%Q
     <> Some (runs_where is_effort [-1]%Q, runs_where is_rest [-1]%Q)
  /\ segment [1; -1; 1]%Q = Some ([1; 1], [1])
  /\ runs_where is_rest [1; -1; 1]%Q = [].
Proof.
  split; [reflexivity|]. split; [reflexivity|]. split; [reflexivity|].
  split; [vm_compute; discriminate|]. split; reflexivity.
Qed.

(** C9 on the one-sample series -1: the recorded durations are an effort run
    of length 0 and a rest run of length 1, so a recorded duration is below
    1. *)
Theorem segment_records_zero_duration :
  exists efforts rests,
    segment [-1]%Q = Some (efforts, rests)
    /\ In 0 efforts
    /\ ~ Forall (fun d => 1 <= d) (efforts ++ rests).
Proof.
  exists [0], [1]. split; [reflexivity|]. split; [now left|].
  intros H. inversion H; subst. lia.
Qed.

(** The part of C9 that holds on every non-empty series of floats, with
    negative, infinite and NaN samples: the recorded durations add up to the
    number of samples and the two lists are not both empty; and when the
    first sample is >= 0 (neither negative nor NaN) every recorded duration
    is at least 1.  With NaN first, an effort run of length 0 is recorded. *)
Theorem segment_partition (first : pyfloat) (rest : list pyfloat) :
  (exists efforts rests,
      segment_float (first :: rest) = Some (efforts, rests)
      /\ list_sum efforts + list_sum rests = List.length (first :: rest)
      /\ (efforts <> [] \/ rests <> [])
      /\ (float_ge0 first = true ->
          Forall (fun d => 1 <= d) efforts /\ Forall (fun d => 1 <= d) rests))
  /\ segment_float [nan; finite 1] = Some ([0; 1], [1]).
Proof.
  split; [|reflexivity].
  unfold segment_float. rewrite segment_by_runs. cbv zeta.
  set (rs := merge_run (negb (float_eq0 first)) 0
                       (runs (map float_gt0 (first :: rest)))).
  exists (run_lengths true rs), (run_lengths false rs).
  split; [reflexivity|]. split; [|split].
  - rewrite run_lengths_total. subst rs.
    now rewrite merge_run_total, runs_total, length_map.
  - apply run_lengths_not_both_nil. apply merge_run_not_nil.
  - intros Hfirst. subst rs. rewrite (float_ge0_tests first Hfirst).
    cbn [map runs]. rewrite merge_run_same.
    assert (Hall : Forall (fun r => 1 <= snd r)
                     (merge_run (float_gt0 first) (0 + 1)
                                (runs (map float_gt0 rest)))).
    { apply merge_run_positive; [lia|apply runs_positive]. }
    split; now apply run_lengths_positive.
Qed.

(** ** The aligned series and the report rows *)

Lemma hr_variations_full_length (hr_values : list Z) :
  hr_values <> [] ->
  List.length (0%Z :: hr_differences_of hr_values) = List.length hr_values.
Proof.
  destruct hr_values as [|first rest]; [contradiction|]. intros _.
  now rewrite hr_differences_cons.
Qed.

Lemma hr_variations_length (hr_values : list Z) (n : nat) :
  hr_values <> [] -> n <= List.length hr_values ->
  List.length (hr_variations_of hr_values n) = n.
Proof.
  intros Hne Hn. unfold hr_variations_of.
  rewrite length_firstn, (hr_variations_full_length hr_values Hne). lia.
Qed.

Lemma process_pace_length (py_float : string -> option Q)
    (raw_paces : list string) (n : nat) :
  n <= List.length raw_paces ->
  List.length (process_pace py_float raw_paces n) = n.
Proof.
  intros Hn. unfold process_pace.
  destruct (floats_of py_float (firstn n raw_paces)) as [values|] eqn:E.
  - rewrite (floats_of_length py_float _ _ E), length_firstn. lia.
  - apply repeat_length.
Qed.

(** The row loop succeeds when every index is inside the four series. *)
Lemma export_rows_from_total (indices : list nat) (timestamps : list string)
    (hr_variations : list Z) (current_hr paces : list Q) :
  Forall (fun i => i < List.length timestamps /\ i < List.length hr_variations
                   /\ i < List.length current_hr /\ i < List.length paces)
         indices ->
  exists rows,
    export_rows_from indices timestamps hr_variations current_hr paces = Some rows
    /\ map row_relative rows = indices.
Proof.
  induction 1 as [|i rest [Ht [Hv [Hc Hp]]] _ [rows [IH Hrel]]]; simpl.
  - now exists [].
  - apply nth_error_Some in Ht, Hv, Hc, Hp.
    destruct (nth_error timestamps i) as [t|]; [|contradiction].
    destruct (nth_error hr_variations i) as [v|]; [|contradiction].
    destruct (nth_error current_hr i) as [hr|]; [|contradiction].
    destruct (nth_error paces i) as [p|]; [|contradiction].
    rewrite IH. eexists. split; [reflexivity|]. simpl. now rewrite Hrel.
Qed.

Lemma export_rows_total (timestamps : list string) (hr_variations : list Z)
    (current_hr paces : list Q) (n : nat) :
  List.length timestamps = n -> List.length hr_variations = n ->
  List.length current_hr = n -> List.length paces = n ->
  exists rows,
    export_rows timestamps hr_variations current_hr paces = Some rows
    /\ map row_relative rows = seq 0 n.
Proof.
  intros Ht Hv Hc Hp. unfold export_rows. rewrite Ht.
  apply export_rows_from_total. apply Forall_forall.
  intros i Hi. apply in_seq in Hi. lia.
Qed.

Section WorkoutFacts.

Variable py_int : string -> option Z.
Variable py_float : string -> option Q.
Variable get_workout_detail : string -> string -> option detail_data.
Variable datetime : Type.
Variable local_datetime : Z -> option datetime.
Variable strftime_after : datetime -> nat -> string.
Variable strftime_file : datetime -> string.

Local Abbreviation points := (num_points_of py_int).
Local Abbreviation run :=
  (process_workout py_int py_float get_workout_detail
                   datetime local_datetime strftime_after strftime_file).
Local Abbreviation run_all :=
  (process_all py_int py_float get_workout_detail
               datetime local_datetime strftime_after strftime_file).
Local Abbreviation stamps := (generate_timestamps datetime strftime_after).

Lemma generate_timestamps_length (start_time : datetime) (n : nat) :
  List.length (stamps start_time n) = n.
Proof.
  unfold generate_timestamps. now rewrite length_map, length_seq.
Qed.

(** C10.  When the common prefix length [n] is positive, the decoded
    heart-rate sequence is not empty, so the starting value is its first
    token and never the default 70; the variation series before the cut has
    as many elements as there are heart-rate tokens, at least [n], so the
    cut alone gives it length [n]; the absolute heart-rate series, the
    variation series, the pace series and the time stamps all have length
    [n]; and the row loop of the export reads the indices 0 .. n-1 of all
    four without leaving them. *)
Theorem aligned_series (d : detail_data) (start_time : datetime)
    (Hn : 0 < points d) :
  let n := points d in
  let hr_values := parse_hr py_int d in
  let timestamps := stamps start_time n in
  let current_hr := reconstruct_hr hr_values n in
  let hr_variations := hr_variations_of hr_values n in
  let processed_pace := process_pace py_float (parse_pace d) n in
  hr_values <> []
  /\ base_hr_of hr_values = inject_Z (nth 0 hr_values 0%Z)
  /\ List.length (0%Z :: hr_differences_of hr_values) = List.length hr_values
  /\ n <= List.length hr_values
  /\ hr_variations = firstn n (0%Z :: hr_differences_of hr_values)
  /\ List.length timestamps = n
  /\ List.length current_hr = n
  /\ List.length hr_variations = n
  /\ List.length processed_pace = n
  /\ exists rows,
       export_rows timestamps hr_variations current_hr processed_pace = Some rows
       /\ map row_relative rows = seq 0 n.
Proof.
  intros n hr_values timestamps current_hr hr_variations processed_pace.
  assert (Hhr : n <= List.length hr_values)
    by (subst n hr_values; unfold num_points_of; lia).
  assert (Hpace : n <= List.length (parse_pace d))
    by (subst n; unfold num_points_of; lia).
  assert (Hne : hr_values <> []).
  { intros E. rewrite E in Hhr. simpl in Hhr. subst n. lia. }
  assert (Ht : List.length timestamps = n)
    by apply generate_timestamps_length.
  assert (Hc : List.length current_hr = n) by apply reconstruct_hr_length.
  assert (Hv : List.length hr_variations = n)
    by now apply hr_variations_length.
  assert (Hp : List.length processed_pace = n)
    by now apply process_pace_length.
  split; [exact Hne|]. split.
  { destruct hr_values; [contradiction|reflexivity]. }
  split; [now apply hr_variations_full_length|].
  split; [exact Hhr|]. split; [reflexivity|].
  split; [exact Ht|]. split; [exact Hc|]. split; [exact Hv|].
  split; [exact Hp|]. now apply export_rows_total.
Qed.

(** What a call that ends with an export went through. *)
Lemma process_workout_exported (w : workout) (log : list log_entry) (r : report) :
  run w = (log, Exported r) ->
  exists d metrics,
    get_workout_detail (trackid w) (source w) = Some d
    /\ 0 < points d
    /\ report_paces r = process_pace py_float (parse_pace d) (points d)
    /\ report_current_hr r = reconstruct_hr (parse_hr py_int d) (points d)
    /\ report_hr_variations r
       = hr_variations_of (parse_hr py_int d) (points d)
    /\ report_metrics r = metrics
    /\ compute_metrics py_float w (points d) (report_hr_variations r)
                       (report_current_hr r) (report_paces r) = Some metrics.
Proof.
  unfold process_workout.
  destruct (get_workout_detail (trackid w) (source w)) as [d|];
    [|discriminate].
  destruct (points d =? 0) eqn:En; [discriminate|].
  apply Nat.eqb_neq in En.
  destruct (py_int (trackid w)) as [seconds|]; [|discriminate].
  destruct (local_datetime seconds) as [start_time|]; [|discriminate].
  destruct (compute_metrics _ _ _ _ _ _) as [metrics|] eqn:Em; [|discriminate].
  destruct (export_rows _ _ _ _) as [rows|]; [|discriminate].
  intros H. injection H as _ <-. cbn [report_paces report_current_hr
    report_hr_variations report_metrics].
  exists d, metrics. repeat split; try reflexivity; [lia|exact Em].
Qed.

(** C7.  For a workout that is exported, the pace series is not empty, the
    moving percentage is the number of samples with pace > 0 divided by the
    length of the pace series, times 100, the idle percentage is 100 minus
    the moving percentage, and the total distance is the lap count times
    the pool length, where the lap count is [float] of the field
    [total_trips] and the pool length [float] of the field
    [swim_pool_length], each 0 when its field is absent. *)
Theorem metrics_summary (w : workout) (log : list log_entry) (r : report)
    (Hrun : run w = (log, Exported r)) :
  let m := report_metrics r in
  let paces := report_paces r in
  paces <> []
  /\ percentage_moving m
     = (of_nat (List.length (filter (fun p => Qlt_bool 0 p) paces))
        / of_nat (List.length paces) * 100)%Q
  /\ percentage_idle m = (100 - percentage_moving m)%Q
  /\ exists laps pool_length,
       float_field py_float (total_trips w) = Some laps
       /\ float_field py_float (swim_pool_length w) = Some pool_length
       /\ total_distance m = (laps * pool_length)%Q
       /\ match total_trips w with
          | Some field => py_float field = Some laps
          | None => laps = 0%Q
          end
       /\ match swim_pool_length w with
          | Some field => py_float field = Some pool_length
          | None => pool_length = 0%Q
          end.
Proof.
  intros m paces.
  destruct (process_workout_exported w log r Hrun)
    as [d [metrics [_ [Hn [Hp [_ [_ [Hm Hc]]]]]]]].
  assert (Hlen : List.length paces = points d).
  { subst paces. rewrite Hp. apply process_pace_length.
    unfold num_points_of. lia. }
  subst m. rewrite Hm. fold paces in Hc. clear Hm Hp.
  unfold compute_metrics in Hc. rewrite <- Hlen in Hc, Hn.
  destruct (List.length paces) as [|k] eqn:Ek; [lia|].
  destruct (report_current_hr r) as [|first_hr later_hr]; [discriminate|].
  destruct (segment paces) as [[efforts rests]|]; [|discriminate].
  destruct (float_field py_float (total_trips w)) as [laps|] eqn:El;
    [|discriminate].
  destruct (float_field py_float (swim_pool_length w)) as [pool_length|] eqn:Epl;
    [|discriminate].
  injection Hc as <-. cbn [percentage_moving percentage_idle total_distance].
  split; [intros E; rewrite E in Ek; discriminate|].
  split; [reflexivity|]. split; [reflexivity|].
  exists laps, pool_length.
  split; [reflexivity|]. split; [reflexivity|]. split; [reflexivity|].
  unfold float_field in El, Epl. split.
  - destruct (total_trips w); [exact El|congruence].
  - destruct (swim_pool_length w); [exact Epl|congruence].
Qed.

(** The metrics of an exported workout are the stage functions applied to
    the series of the report, with the number of samples as [num_points]. *)
Lemma exported_metrics_stages (w : workout) (log : list log_entry) (r : report) :
  run w = (log, Exported r) ->
  let m := report_metrics r in
  List.length (report_current_hr r) = List.length (report_paces r)
  /\ zone_percentages m
     = zone_percentages_of hr_max_theoretical (report_current_hr r)
                           (List.length (report_current_hr r))
  /\ hr_variance m = hr_variance_of (report_hr_variations r)
  /\ exists efforts rests,
       segment (report_paces r) = Some (efforts, rests)
       /\ avg_effort_duration m = average_duration efforts
       /\ avg_rest_duration m = average_duration rests.
Proof.
  intros Hrun m.
  destruct (process_workout_exported w log r Hrun)
    as [d [metrics [_ [Hn [Hp [Hhr [_ [Hm Hc]]]]]]]].
  assert (Hlp : List.length (report_paces r) = points d).
  { rewrite Hp. apply process_pace_length. unfold num_points_of. lia. }
  assert (Hlc : List.length (report_current_hr r) = points d).
  { rewrite Hhr. apply reconstruct_hr_length. }
  subst m. rewrite Hm. clear Hm Hp Hhr.
  unfold compute_metrics in Hc. rewrite Hlc.
  destruct (points d) as [|k]; [lia|].
  destruct (report_current_hr r) as [|first_hr later_hr]; [discriminate|].
  destruct (segment (report_paces r)) as [[efforts rests]|]; [|discriminate].
  destruct (float_field py_float (total_trips w)); [|discriminate].
  destruct (float_field py_float (swim_pool_length w)); [|discriminate].
  injection Hc as <-.
  cbn [zone_percentages hr_variance avg_effort_duration avg_rest_duration].
  split; [congruence|]. split; [reflexivity|]. split; [reflexivity|].
  exists efforts, rests. repeat split.
Qed.

(** A skipped workout leaves the reports of the batch and its completion
    as they are without it. *)
Lemma process_all_skip (w : workout) (log : list log_entry)
    (before after : list workout) :
  run w = (log, Skipped) ->
  snd (fst (run_all (before ++ w :: after)))
  = snd (fst (run_all (before ++ after)))
  /\ snd (run_all (before ++ w :: after))
     = snd (run_all (before ++ after)).
Proof.
  intros Hw. induction before as [|a before IH].
  - cbn [app process_all]. rewrite Hw.
    destruct (run_all after) as [[l rs] f]. split; reflexivity.
  - cbn [app process_all].
    destruct (run a) as [la [| |]];
      destruct (run_all (before ++ w :: after)) as [[l1 r1] f1];
      destruct (run_all (before ++ after)) as [[l2 r2] f2];
      cbn [fst snd] in *; destruct IH as [-> ->]; split; reflexivity.
Qed.

(** C8.  A workout whose common prefix length, the minimum of the three
    decoded lengths, is 0 ends right after the warning: nothing is computed
    or exported for it, whatever its other fields hold; and in a batch the
    reports of the other workouts, and whether the batch runs to its end,
    are the same with it as without it. *)
Theorem empty_prefix_skips (w : workout) (d : detail_data)
    (Hfetch : get_workout_detail (trackid w) (source w) = Some d)
    (Hzero : Nat.min (List.length (parse_times d))
                     (Nat.min (List.length (parse_hr py_int d))
                              (List.length (parse_pace d))) = 0) :
  run w
  = ([log_info ("Processing workout with track_id " ++ trackid w);
      log_warning ("No usable data for workout " ++ trackid w)],
     Skipped)
  /\ forall before after,
       snd (fst (run_all (before ++ w :: after)))
       = snd (fst (run_all (before ++ after)))
       /\ snd (run_all (before ++ w :: after))
          = snd (run_all (before ++ after)).
Proof.
  assert (Hw : run w
               = ([log_info ("Processing workout with track_id " ++ trackid w);
                   log_warning ("No usable data for workout " ++ trackid w)],
                  Skipped)).
  { unfold process_workout. rewrite Hfetch.
    unfold num_points_of. rewrite Hzero. reflexivity. }
  split; [exact Hw|].
  intros before after. eapply process_all_skip. exact Hw.
Qed.

End WorkoutFacts.

(** ** The pipeline on sample workouts *)

(** C10 on the three-sample workout. *)
Lemma aligned_series_witness :
  List.length (reconstruct_hr (parse_hr Sample.decimal_int Sample.swim_detail) 3) = 3
  /\ List.length (hr_variations_of (parse_hr Sample.decimal_int Sample.swim_detail) 3) = 3
  /\ List.length (process_pace Sample.decimal_float (parse_pace Sample.swim_detail) 3) = 3.
Proof.
  assert (Hn : 0 < num_points_of Sample.decimal_int Sample.swim_detail)
    by (vm_compute; lia).
  pose proof (aligned_series Sample.decimal_int Sample.decimal_float Z
                Sample.no_format Sample.swim_detail 0%Z Hn) as H.
  cbv zeta in H.
  change (num_points_of Sample.decimal_int Sample.swim_detail) with 3 in H.
  destruct H as [_ [_ [_ [_ [_ [_ [Hc [Hv [Hp _]]]]]]]]].
  split; [exact Hc|]. split; [exact Hv|exact Hp].
Defined.

(** C7 on the three-sample workout, 40 laps in a pool of 25: it is
    exported, its metrics obey the equations, and its distance is 1000. *)
Lemma metrics_summary_witness :
  match snd (process_workout Sample.decimal_int Sample.decimal_float
               Sample.service Z Sample.seconds_datetime Sample.no_format Sample.file_name
               Sample.swim) with
  | Exported r =>
      report_paces r <> []
      /\ percentage_idle (report_metrics r)
         = (100 - percentage_moving (report_metrics r))%Q
      /\ (total_distance (report_metrics r) == 1000)%Q
  | _ => False
  end.
Proof.
  destruct (process_workout Sample.decimal_int Sample.decimal_float
              Sample.service Z Sample.seconds_datetime Sample.no_format Sample.file_name
              Sample.swim) as [log o] eqn:E.
  destruct o as [|r|]; cbn [snd].
  - vm_compute in E. discriminate.
  - destruct (metrics_summary Sample.decimal_int Sample.decimal_float
                Sample.service Z Sample.seconds_datetime Sample.no_format Sample.file_name
                Sample.swim log r E)
      as [Hne [_ [Hidle [laps [pool_length [_ [_ [Hdist [Hlaps Hpool]]]]]]]]].
    split; [exact Hne|]. split; [exact Hidle|].
    cbn [total_trips swim_pool_length Sample.swim] in Hlaps, Hpool.
    vm_compute in Hlaps. vm_compute in Hpool.
    injection Hlaps as <-. injection Hpool as <-.
    rewrite Hdist. reflexivity.
  - vm_compute in E. discriminate.
Defined.

(** C8 on a batch of three: the workout without time stamps is skipped and
    the two others are exported as if it were not there. *)
Lemma empty_prefix_skips_witness :
  snd (process_workout Sample.decimal_int Sample.decimal_float
         Sample.service Z Sample.seconds_datetime Sample.no_format Sample.file_name
         Sample.blank) = Skipped
  /\ snd (fst (process_all Sample.decimal_int Sample.decimal_float
                 Sample.service Z Sample.seconds_datetime Sample.no_format Sample.file_name
                 ([Sample.swim] ++ Sample.blank :: [Sample.swim])))
     = snd (fst (process_all Sample.decimal_int Sample.decimal_float
                   Sample.service Z Sample.seconds_datetime Sample.no_format Sample.file_name
                   ([Sample.swim] ++ [Sample.swim]))).
Proof.
  destruct (empty_prefix_skips Sample.decimal_int Sample.decimal_float
              Sample.service Z Sample.seconds_datetime Sample.no_format Sample.file_name
              Sample.blank Sample.blank_detail eq_refl eq_refl) as [Hw Hbatch].
  split.
  - now rewrite Hw.
  - exact (proj1 (Hbatch [Sample.swim] [Sample.swim])).
Defined.

(** * Further properties of the code *)

(** ** Splitting, joining and stripping *)

Lemma contains_app (c : ascii) (a b : string) :
  PyStr.contains c (a ++ b)%string = PyStr.contains c a || PyStr.contains c b.
Proof.
  induction a as [|x a IH]; simpl; [reflexivity|].
  now rewrite IH, orb_assoc.
Qed.

(** A piece without the separator, followed by the separator, is split off. *)
Lemma split_app_free (sep : ascii) (piece rest : string) :
  PyStr.contains sep piece = false ->
  PyStr.split sep (piece ++ String sep rest)%string = piece :: PyStr.split sep rest.
Proof.
  induction piece as [|c piece IH]; simpl; intros H.
  - now rewrite Ascii.eqb_refl.
  - apply orb_false_iff in H as [Hc Hrest].
    rewrite Hc, (IH Hrest). reflexivity.
Qed.

Lemma split_free (sep : ascii) (piece : string) :
  PyStr.contains sep piece = false -> PyStr.split sep piece = [piece].
Proof.
  induction piece as [|c piece IH]; simpl; intros H; [reflexivity|].
  apply orb_false_iff in H as [Hc Hrest].
  rewrite Hc, (IH Hrest). reflexivity.
Qed.

(** Splitting the join of separator-free pieces gives the pieces back. *)
Lemma split_join (sep : ascii) (pieces : list string) :
  pieces <> [] ->
  Forall (fun piece => PyStr.contains sep piece = false) pieces ->
  PyStr.split sep (join sep pieces) = pieces.
Proof.
  induction pieces as [|piece rest IH]; [contradiction|].
  intros _ Hall. inversion Hall as [|? ? Hpiece Hrest]; subst.
  destruct rest as [|next rest].
  - simpl. now apply split_free.
  - change (join sep (piece :: next :: rest))
      with (piece ++ String sep (join sep (next :: rest)))%string.
    rewrite (split_app_free sep piece _ Hpiece), IH; [reflexivity|discriminate|exact Hrest].
Qed.

(** A separator at the end adds one empty piece. *)
Lemma split_trailing (sep : ascii) (s : string) :
  PyStr.split sep (s ++ String sep "")%string = PyStr.split sep s ++ [""%string].
Proof.
  induction s as [|c s IH]; simpl.
  - now rewrite Ascii.eqb_refl.
  - rewrite IH. destruct (Ascii.eqb c sep); [reflexivity|].
    pose proof (split_not_nil sep s) as Hne.
    destruct (PyStr.split sep s); [contradiction|reflexivity].
Qed.

Lemma replace_app (old new : ascii) (a b : string) :
  PyStr.replace old new (a ++ b)%string
  = (PyStr.replace old new a ++ PyStr.replace old new b)%string.
Proof.
  induction a as [|c a IH]; simpl; [reflexivity|]. now rewrite IH.
Qed.

Lemma rstrip_cons (c : ascii) (s : string) :
  PyStr.rstrip (String c s)
  = match PyStr.rstrip s with
    | EmptyString => if PyStr.is_space c then EmptyString else String c EmptyString
    | kept => String c kept
    end.
Proof. reflexivity. Qed.

Lemma rstrip_idempotent (s : string) :
  PyStr.rstrip (PyStr.rstrip s) = PyStr.rstrip s.
Proof.
  induction s as [|c s IH]; [reflexivity|].
  rewrite rstrip_cons. destruct (PyStr.rstrip s) as [|k kept] eqn:E.
  - destruct (PyStr.is_space c) eqn:Ec; [reflexivity|].
    rewrite rstrip_cons. cbn [PyStr.rstrip]. now rewrite Ec.
  - rewrite rstrip_cons, IH. reflexivity.
Qed.

(** After [rstrip] a string that starts with a character other than white
    space still starts with it. *)
Lemma lstrip_rstrip_lstrip (s : string) :
  PyStr.lstrip (PyStr.rstrip (PyStr.lstrip s)) = PyStr.rstrip (PyStr.lstrip s).
Proof.
  induction s as [|c s IH]; [reflexivity|].
  cbn [PyStr.lstrip]. destruct (PyStr.is_space c) eqn:Ec; [exact IH|].
  rewrite rstrip_cons. destruct (PyStr.rstrip s);
    rewrite ?Ec; cbn [PyStr.lstrip]; now rewrite Ec.
Qed.

(** [strip] leaves nothing to strip. *)
Lemma strip_idempotent (s : string) :
  PyStr.strip (PyStr.strip s) = PyStr.strip s.
Proof.
  unfold PyStr.strip. now rewrite lstrip_rstrip_lstrip, rstrip_idempotent.
Qed.

(** The tokens the time and pace decoders keep from a list of pieces. *)
Lemma kept_tokens_clean (pieces : list string) :
  Forall (fun piece => PyStr.contains ";" piece = false) pieces ->
  Forall clean_token
         (map PyStr.strip
              (filter (fun t => PyStr.truthy (PyStr.strip t)) pieces)).
Proof.
  intros Hall. apply Forall_forall. intros token Hin.
  apply in_map_iff in Hin as [piece [<- Hin]].
  apply filter_In in Hin as [Hin Htruthy].
  rewrite Forall_forall in Hall. specialize (Hall piece Hin).
  split; [exact Htruthy|]. split; [|apply strip_idempotent].
  destruct (PyStr.contains ";" (PyStr.strip piece)) eqn:E; [|reflexivity].
  apply strip_chars in E. congruence.
Qed.

Lemma kept_tokens_of_clean (tokens : list string) :
  Forall clean_token tokens ->
  map PyStr.strip (filter (fun t => PyStr.truthy (PyStr.strip t)) tokens) = tokens.
Proof.
  induction 1 as [|t rest [Ht [_ Hs]] _ IH]; [reflexivity|].
  cbn [filter]. rewrite Hs, Ht. cbn [map]. now rewrite Hs, IH.
Qed.

Lemma kept_tokens_trailing (pieces : list string) :
  map PyStr.strip
      (filter (fun t => PyStr.truthy (PyStr.strip t)) (pieces ++ [""%string]))
  = map PyStr.strip (filter (fun t => PyStr.truthy (PyStr.strip t)) pieces).
Proof.
  rewrite filter_app. cbn [filter]. now rewrite app_nil_r.
Qed.

Lemma replace_join (old new sep : ascii) (pieces : list string) :
  Ascii.eqb sep old = false ->
  PyStr.replace old new (join sep pieces)
  = join sep (map (PyStr.replace old new) pieces).
Proof.
  intros Hsep. induction pieces as [|piece rest IH]; [reflexivity|].
  destruct rest as [|next rest]; [reflexivity|].
  change (join sep (piece :: next :: rest))
    with (piece ++ String sep (join sep (next :: rest)))%string.
  rewrite replace_app. cbn [PyStr.replace]. rewrite Hsep, IH. reflexivity.
Qed.

Section ReplaceKeepsTokens.

Variables old new : ascii.
Hypothesis old_not_space : PyStr.is_space old = false.
Hypothesis new_not_space : PyStr.is_space new = false.

Lemma replaced_is_space (c : ascii) :
  PyStr.is_space (if Ascii.eqb c old then new else c) = PyStr.is_space c.
Proof.
  destruct (Ascii.eqb c old) eqn:E; [|reflexivity].
  apply Ascii.eqb_eq in E. subst c. congruence.
Qed.

Lemma lstrip_replace (s : string) :
  PyStr.lstrip (PyStr.replace old new s) = PyStr.replace old new (PyStr.lstrip s).
Proof.
  induction s as [|c s IH]; [reflexivity|].
  cbn [PyStr.replace PyStr.lstrip]. rewrite replaced_is_space.
  destruct (PyStr.is_space c); [exact IH|reflexivity].
Qed.

Lemma rstrip_replace (s : string) :
  PyStr.rstrip (PyStr.replace old new s) = PyStr.replace old new (PyStr.rstrip s).
Proof.
  induction s as [|c s IH]; [reflexivity|].
  cbn [PyStr.replace]. rewrite !rstrip_cons, IH, replaced_is_space.
  destruct (PyStr.rstrip s); [|reflexivity].
  destruct (PyStr.is_space c); reflexivity.
Qed.

Lemma strip_replace (s : string) :
  PyStr.strip (PyStr.replace old new s) = PyStr.replace old new (PyStr.strip s).
Proof.
  unfold PyStr.strip. now rewrite lstrip_replace, rstrip_replace.
Qed.

End ReplaceKeepsTokens.

Lemma replace_keeps_other (old new c : ascii) (s : string) :
  Ascii.eqb new c = false ->
  PyStr.contains c s = false -> PyStr.contains c (PyStr.replace old new s) = false.
Proof.
  intros Hnew. induction s as [|x s IH]; simpl; [trivial|].
  intros H. apply orb_false_iff in H as [Hx Hs].
  rewrite (IH Hs), orb_false_r. destruct (Ascii.eqb x old); assumption.
Qed.

(** A clean token stays clean when its commas become periods. *)
Lemma clean_token_replace (t : string) :
  clean_token t -> clean_token (PyStr.replace "," "." t).
Proof.
  intros [Ht [Hsemi Hstrip]]. split; [|split].
  - destruct t; [discriminate|reflexivity].
  - now apply replace_keeps_other.
  - rewrite strip_replace by reflexivity. now rewrite Hstrip.
Qed.

Section DecoderRoundTrips.

Variable py_int : string -> option Z.

(** [parse_hr] without the test on the empty string, which changes nothing. *)
Lemma parse_hr_tokens (d : detail_data) :
  parse_hr py_int d
  = map (hr_token py_int)
        (filter (PyStr.contains ",")
                (filter PyStr.truthy (PyStr.split ";" (get_str (heart_rate d))))).
Proof.
  unfold parse_hr. destruct (get_str (heart_rate d)) as [|c rest]; [reflexivity|].
  cbv beta iota delta [PyStr.truthy]. apply parse_hr_loop_spec.
Qed.

(** Every token of [parse_times] and of [parse_pace] is not empty, holds no
    [;] and has no white space at either end; a pace token holds no comma
    either. *)
Theorem decoded_tokens_clean (d : detail_data) :
  Forall clean_token (parse_times d)
  /\ Forall (fun t => clean_token t /\ PyStr.contains "," t = false) (parse_pace d).
Proof.
  split.
  - apply kept_tokens_clean, split_pieces_free.
  - unfold parse_pace.
    set (normalized := PyStr.replace "," "." (get_str (pace d))).
    pose proof (kept_tokens_clean (PyStr.split ";" normalized)
                  (split_pieces_free ";" normalized)) as Hclean.
    rewrite Forall_forall in Hclean. apply Forall_forall.
    intros token Hin. split; [now apply Hclean|].
    apply in_map_iff in Hin as [piece [<- Hin]].
    apply filter_In in Hin as [Hin _].
    destruct (PyStr.contains "," (PyStr.strip piece)) eqn:E; [|reflexivity].
    apply strip_chars in E.
    pose proof (split_piece_chars ";" "," normalized) as Hall.
    rewrite Forall_forall in Hall. specialize (Hall piece Hin E).
    subst normalized. rewrite replace_removes in Hall; discriminate.
Qed.

(** A [;] at the end of a raw stream changes nothing for any of the three
    decoders. *)
Theorem trailing_separator_ignored (s : string) (a b : option string) :
  parse_times (mk_detail (Some (s ++ ";")%string) a b)
  = parse_times (mk_detail (Some s) a b)
  /\ parse_hr py_int (mk_detail a (Some (s ++ ";")%string) b)
     = parse_hr py_int (mk_detail a (Some s) b)
  /\ parse_pace (mk_detail a b (Some (s ++ ";")%string))
     = parse_pace (mk_detail a b (Some s)).
Proof.
  split; [|split].
  - unfold parse_times. cbn [time get_str].
    now rewrite split_trailing, kept_tokens_trailing.
  - rewrite !parse_hr_tokens. cbn [heart_rate get_str].
    rewrite split_trailing, filter_app. cbn [filter]. now rewrite app_nil_r.
  - unfold parse_pace. cbn [pace get_str].
    rewrite replace_app. cbn [PyStr.replace Ascii.eqb Bool.eqb].
    now rewrite split_trailing, kept_tokens_trailing.
Qed.

(** Decoding the [;]-join of clean tokens gives the tokens back, for the
    time stream as they are and for the pace stream with each comma turned
    into a period. *)
Theorem clean_tokens_roundtrip (tokens : list string) (a b : option string)
    (Hclean : Forall clean_token tokens) :
  parse_times (mk_detail (Some (join ";" tokens)) a b) = tokens
  /\ parse_pace (mk_detail a b (Some (join ";" tokens)))
     = map (PyStr.replace "," ".") tokens.
Proof.
  assert (Hback : forall ts, Forall clean_token ts ->
            map PyStr.strip
                (filter (fun t => PyStr.truthy (PyStr.strip t))
                        (PyStr.split ";" (join ";" ts))) = ts).
  { intros ts Hts. destruct ts as [|t rest]; [reflexivity|].
    rewrite split_join; [now apply kept_tokens_of_clean|discriminate|].
    eapply Forall_impl; [|exact Hts]. now intros x [_ [Hx _]]. }
  split.
  - unfold parse_times. cbn [time get_str]. now apply Hback.
  - unfold parse_pace. cbn [pace get_str].
    rewrite replace_join by reflexivity. apply Hback.
    apply Forall_forall. intros t Hin.
    apply in_map_iff in Hin as [t0 [<- Hin]].
    rewrite Forall_forall in Hclean. now apply clean_token_replace, Hclean.
Qed.

Lemma join_truthy (sep : ascii) (piece : string) (rest : list string) :
  PyStr.truthy piece = true -> PyStr.truthy (join sep (piece :: rest)) = true.
Proof.
  destruct piece; [discriminate|]. intros _. destruct rest; reflexivity.
Qed.

(** Decoding the [;]-join of [timestamp,hr] segments, whose two fields hold
    neither [;] nor [,], gives one token per segment: [int] of the second
    field, or 0 where [int] rejects it. *)
Theorem parse_hr_roundtrip (pairs : list (string * string)) (a b : option string)
    (Hplain : Forall (fun pair => plain (fst pair) /\ plain (snd pair)) pairs) :
  parse_hr py_int (mk_detail a (Some (join ";" (map hr_segment pairs))) b)
  = map (fun pair => match py_int (snd pair) with
                     | Some hr_val => hr_val
                     | None => 0%Z
                     end) pairs.
Proof.
  rewrite parse_hr_tokens. cbn [heart_rate get_str].
  destruct pairs as [|pair rest]; [reflexivity|].
  set (pairs := pair :: rest) in *.
  assert (Hseg : Forall (fun seg => PyStr.contains ";" seg = false
                                    /\ PyStr.truthy seg = true
                                    /\ PyStr.contains "," seg = true)
                        (map hr_segment pairs)).
  { apply Forall_forall. intros seg Hin.
    apply in_map_iff in Hin as [[ts v] [<- Hin]].
    rewrite Forall_forall in Hplain.
    destruct (Hplain _ Hin) as [[Hts _] [Hv _]]. cbn [fst snd] in *.
    unfold hr_segment. cbn [fst snd]. split; [|split].
    - rewrite contains_app, Hts. simpl. exact Hv.
    - destruct ts; reflexivity.
    - rewrite contains_app. simpl. apply orb_true_r. }
  rewrite split_join;
    [|subst pairs; discriminate
     |eapply Forall_impl; [|exact Hseg]; now intros x [Hx _]].
  assert (Hkeep : forall segs,
            Forall (fun seg => PyStr.contains ";" seg = false
                               /\ PyStr.truthy seg = true
                               /\ PyStr.contains "," seg = true) segs ->
            filter (PyStr.contains ",") (filter PyStr.truthy segs) = segs).
  { induction 1 as [|seg segs [_ [Ht Hc]] _ IH]; [reflexivity|].
    cbn [filter]. rewrite Ht. cbn [filter]. now rewrite Hc, IH. }
  rewrite (Hkeep _ Hseg), map_map. apply map_ext_in.
  intros [ts v] Hin. rewrite Forall_forall in Hplain.
  destruct (Hplain _ Hin) as [[_ Hts] [_ Hv]]. cbn [fst snd] in *.
  unfold hr_token, hr_segment. cbn [fst snd].
  now rewrite (split_app_free "," ts v Hts), (split_free "," v Hv).
Qed.

End DecoderRoundTrips.

(** ** More on the reconstruction of the heart rate *)

Lemma firstn_repeat_pad {A : Type} (series : list A) (x : A) (n m : nat) :
  n <= m ->
  firstn n (series ++ repeat x m) = firstn n (series ++ repeat x n).
Proof.
  intros Hnm. replace m with (n + (m - n)) by lia.
  rewrite repeat_app, app_assoc, (firstn_app n (series ++ repeat x n)).
  rewrite length_app, repeat_length.
  replace (n - (List.length series + n)) with 0 by lia.
  cbn [firstn]. now rewrite app_nil_r.
Qed.

(** The series for a shorter target length is the start of the series for a
    longer one. *)
Theorem reconstruct_hr_prefix (hr_values : list Z) (n m : nat) (Hnm : n <= m) :
  reconstruct_hr hr_values n = firstn n (reconstruct_hr hr_values m).
Proof.
  unfold reconstruct_hr. rewrite firstn_firstn.
  replace (Nat.min n m) with n by lia.
  symmetry. now apply firstn_repeat_pad.
Qed.

Lemma running_totals_closed (diffs : list Z) (base : Q) (i : nat) :
  i <= List.length diffs ->
  (nth i (base :: running_totals base diffs) 0
   == base + inject_Z (zsum (firstn i diffs)))%Q.
Proof.
  revert base i. induction diffs as [|d rest IH]; intros base i Hi.
  - destruct i; [|simpl in Hi; lia]. simpl. unfold zsum. simpl. ring.
  - destruct i as [|i]; [unfold zsum; simpl; ring|].
    change (nth (S i) (base :: running_totals base (d :: rest)) 0%Q)
      with (nth i ((base + inject_Z d)%Q
                   :: running_totals (base + inject_Z d)%Q rest) 0%Q).
    simpl in Hi. rewrite IH by lia.
    cbn [firstn]. rewrite !zsum_inject. cbn [map fold_right]. ring.
Qed.

(** Inside the decoded range and the target length, element [i] is the sum
    of the tokens 0 .. i. *)
Theorem reconstruct_hr_prefix_sum (hr_values : list Z) (n i : nat)
    (Hi : i < n) (Hdec : i < List.length hr_values) :
  (nth i (reconstruct_hr hr_values n) 0
   == inject_Z (zsum (firstn (S i) hr_values)))%Q.
Proof.
  destruct hr_values as [|first rest]; [simpl in Hdec; lia|].
  rewrite reconstruct_hr_cons. cbv zeta.
  rewrite nth_firstn. apply Nat.ltb_lt in Hi. rewrite Hi.
  simpl in Hdec.
  rewrite app_nth1 by (simpl; rewrite running_totals_length; lia).
  rewrite running_totals_closed by lia.
  cbn [firstn]. rewrite !zsum_inject. cbn [map fold_right]. ring.
Qed.

Lemma running_totals_deltas (values : list Z) (previous : Z) (base : Q) :
  (base == inject_Z previous)%Q ->
  Forall2 (fun hr v => hr == inject_Z v)%Q
          (running_totals base (deltas_from previous values)) values.
Proof.
  revert previous base. induction values as [|v rest IH]; intros previous base Hb.
  - constructor.
  - cbn [deltas_from running_totals].
    assert (Hv : (base + inject_Z (v - previous) == inject_Z v)%Q).
    { rewrite Hb. unfold Z.sub. rewrite inject_Z_plus, inject_Z_opp. ring. }
    constructor; [exact Hv|]. now apply IH.
Qed.

(** Reconstruction undoes delta encoding: from the first value followed by
    the successive differences it gives the absolute values back. *)
Theorem reconstruct_delta_roundtrip (values : list Z) (Hne : values <> []) :
  Forall2 (fun hr v => hr == inject_Z v)%Q
          (reconstruct_hr (delta_encode values) (List.length values)) values.
Proof.
  destruct values as [|first rest]; [contradiction|].
  cbn [delta_encode]. rewrite reconstruct_hr_cons. cbv zeta.
  set (series := inject_Z first
                 :: running_totals (inject_Z first) (deltas_from first rest)).
  assert (Hlen : List.length series = List.length (first :: rest)).
  { subst series. cbn [List.length]. f_equal.
    rewrite running_totals_length.
    clear. revert first. induction rest as [|v rest IH]; intros first;
      [reflexivity|]. cbn [deltas_from List.length]. now rewrite IH. }
  rewrite <- Hlen, firstn_app, firstn_all, Nat.sub_diag.
  cbn [firstn]. rewrite app_nil_r. subst series.
  constructor; [reflexivity|]. now apply running_totals_deltas.
Qed.

(** Inside the common prefix the variation series holds the differences of
    the absolute series: element 0 is 0 and element [i > 0] is element [i]
    minus element [i - 1] of the reconstructed heart rate. *)
Theorem variation_is_difference (hr_values : list Z) (n i : nat)
    (Hn : n <= List.length hr_values) (Hi : i < n) :
  (i = 0 -> nth i (hr_variations_of hr_values n) 0%Z = 0%Z)
  /\ (0 < i ->
      (nth i (reconstruct_hr hr_values n) 0
       - nth (i - 1) (reconstruct_hr hr_values n) 0
       == inject_Z (nth i (hr_variations_of hr_values n) 0%Z))%Q).
Proof.
  destruct hr_values as [|first rest]; [simpl in Hn; lia|].
  simpl in Hn. unfold hr_variations_of. rewrite hr_differences_cons.
  rewrite nth_firstn. pose proof Hi as Hb. apply Nat.ltb_lt in Hb. rewrite Hb.
  split; [intros ->; reflexivity|].
  intros Hpos. destruct i as [|i]; [lia|].
  replace (S i - 1) with i by lia.
  rewrite reconstruct_hr_cons. cbv zeta. rewrite !nth_firstn.
  assert (Hb' : (i <? n) = true) by (apply Nat.ltb_lt; lia).
  rewrite Hb, Hb'.
  rewrite !app_nth1 by (simpl; rewrite running_totals_length; lia).
  rewrite (running_totals_step rest (inject_Z first) i) by lia.
  cbn [nth]. ring.
Qed.

(** ** Extremes, percentages and the variance *)

Lemma qmax_spec (xs : list Q) (x : Q) :
  (x <= qmax x xs)%Q
  /\ Forall (fun y => y <= qmax x xs)%Q xs
  /\ In (qmax x xs) (x :: xs).
Proof.
  unfold qmax. revert x. induction xs as [|y rest IH]; intros x; cbn [fold_left].
  - split; [apply Qle_refl|]. split; [constructor|now left].
  - destruct (Qlt_bool x y) eqn:E.
    + apply Qlt_bool_iff in E. destruct (IH y) as [Hy [Hrest Hin]].
      split; [lra|]. split; [constructor; assumption|].
      destruct Hin as [<-|Hin]; [right; now left|right; now right].
    + assert (Hle : (y <= x)%Q).
      { apply Qnot_lt_le. intros H. apply Qlt_bool_iff in H. congruence. }
      destruct (IH x) as [Hx [Hrest Hin]].
      split; [exact Hx|]. split; [constructor; [lra|assumption]|].
      destruct Hin as [<-|Hin]; [now left|right; now right].
Qed.

Lemma qmin_spec (xs : list Q) (x : Q) :
  (qmin x xs <= x)%Q
  /\ Forall (fun y => qmin x xs <= y)%Q xs
  /\ In (qmin x xs) (x :: xs).
Proof.
  unfold qmin. revert x. induction xs as [|y rest IH]; intros x; cbn [fold_left].
  - split; [apply Qle_refl|]. split; [constructor|now left].
  - destruct (Qlt_bool y x) eqn:E.
    + apply Qlt_bool_iff in E. destruct (IH y) as [Hy [Hrest Hin]].
      split; [lra|]. split; [constructor; assumption|].
      destruct Hin as [<-|Hin]; [right; now left|right; now right].
    + assert (Hle : (x <= y)%Q).
      { apply Qnot_lt_le. intros H. apply Qlt_bool_iff in H. congruence. }
      destruct (IH x) as [Hx [Hrest Hin]].
      split; [exact Hx|]. split; [constructor; [lra|assumption]|].
      destruct Hin as [<-|Hin]; [now left|right; now right].
Qed.

Lemma of_nat_nonneg (k : nat) : (0 <= of_nat k)%Q.
Proof.
  unfold of_nat. change 0%Q with (inject_Z 0). rewrite <- Zle_Qle. lia.
Qed.

Lemma of_nat_le (a b : nat) : a <= b -> (of_nat a <= of_nat b)%Q.
Proof.
  unfold of_nat. intros H. rewrite <- Zle_Qle. lia.
Qed.

Lemma of_nat_pos (k : nat) : 0 < k -> (0 < of_nat k)%Q.
Proof.
  unfold of_nat. intros H. change 0%Q with (inject_Z 0). rewrite <- Zlt_Qlt. lia.
Qed.

(** A share [count / total * 100] of a positive total lies in 0 .. 100. *)
Lemma share_bounds (count total : nat) :
  count <= total -> 0 < total ->
  (0 <= of_nat count / of_nat total * 100 /\ of_nat count / of_nat total * 100 <= 100)%Q.
Proof.
  intros Hle Hpos.
  pose proof (of_nat_pos total Hpos) as Ht.
  pose proof (of_nat_nonneg count) as Hc.
  pose proof (of_nat_le count total Hle) as Hct.
  assert (H0 : (0 <= of_nat count / of_nat total)%Q).
  { apply Qle_shift_div_l; [exact Ht|]. lra. }
  assert (H1 : (of_nat count / of_nat total <= 1)%Q).
  { apply Qle_shift_div_r; [exact Ht|]. lra. }
  split; lra.
Qed.

Lemma moving_count_le (paces : list Q) : moving_count paces <= List.length paces.
Proof.
  unfold moving_count. apply filter_length_le.
Qed.

(** For a non-empty series: each zone count is at most the number of
    samples and each zone percentage lies in 0 .. 100. *)
Theorem zone_percentages_bounds (M : Q) (current_hr : list Q)
    (Hne : current_hr <> []) :
  let n := List.length current_hr in
  Forall (fun zc => snd zc <= n) (zone_counts_of M current_hr)
  /\ Forall (fun zp => 0 <= snd zp /\ snd zp <= 100)%Q
            (zone_percentages_of M current_hr n).
Proof.
  intros n.
  assert (Hpos : 0 < n) by (subst n; destruct current_hr; [contradiction|simpl; lia]).
  pose proof (zone_counts_total M current_hr) as Htotal. fold n in Htotal.
  assert (Hcounts : Forall (fun zc => snd zc <= n) (zone_counts_of M current_hr)).
  { apply Forall_forall. intros [zone count] Hin. cbn [snd].
    assert (Hc : In count (map snd (zone_counts_of M current_hr)))
      by (apply in_map_iff; now exists (zone, count)).
    clear Hin. revert Hc Htotal.
    generalize (map snd (zone_counts_of M current_hr)) as counts.
    induction counts as [|c rest IH]; [contradiction|].
    intros Hc Hsum. change (c + list_sum rest <= n) in Hsum.
    destruct Hc as [->|Hc]; [lia|apply IH; [exact Hc|lia]]. }
  split; [exact Hcounts|].
  unfold zone_percentages_of. apply Forall_forall. intros zp Hin.
  apply in_map_iff in Hin as [zc [<- Hin]]. cbn [fst snd].
  rewrite Forall_forall in Hcounts.
  apply share_bounds; [now apply Hcounts|exact Hpos].
Qed.

(** A sample inside 50% .. 100% of [M] has a band: the five bands leave no
    gap. *)
Lemma in_bands_has_band (M hr : Q) :
  in_bands M hr -> exists zone, first_band (hr_zones M) hr = Some zone.
Proof.
  intros [Hlow Hhigh]. cbn [hr_zones first_band].
  destruct (in_band hr ((5 # 10) * M) ((6 # 10) * M)) eqn:E1; [eauto|].
  destruct (in_band hr ((6 # 10) * M) ((7 # 10) * M)) eqn:E2; [eauto|].
  destruct (in_band hr ((7 # 10) * M) ((8 # 10) * M)) eqn:E3; [eauto|].
  destruct (in_band hr ((8 # 10) * M) ((9 # 10) * M)) eqn:E4; [eauto|].
  destruct (in_band hr ((9 # 10) * M) M) eqn:E5; [eauto|].
  exfalso. apply in_band_false in E1, E2, E3, E4, E5.
  assert (H6 : ((6 # 10) * M <= hr)%Q).
  { destruct (Qlt_le_dec hr ((6 # 10) * M)) as [H|H]; [|exact H].
    exfalso. apply E1. split; assumption. }
  assert (H7 : ((7 # 10) * M <= hr)%Q).
  { destruct (Qlt_le_dec hr ((7 # 10) * M)) as [H|H]; [|exact H].
    exfalso. apply E2. split; assumption. }
  assert (H8 : ((8 # 10) * M <= hr)%Q).
  { destruct (Qlt_le_dec hr ((8 # 10) * M)) as [H|H]; [|exact H].
    exfalso. apply E3. split; assumption. }
  assert (H9 : ((9 # 10) * M <= hr)%Q).
  { destruct (Qlt_le_dec hr ((9 # 10) * M)) as [H|H]; [|exact H].
    exfalso. apply E4. split; assumption. }
  apply E5. split; assumption.
Qed.

Lemma zone_counts_cons (M : Q) (hr : Q) (rest : list Q) :
  list_sum (map snd (zone_counts_of M (hr :: rest)))
  = (match first_band (hr_zones M) hr with Some _ => 1 | None => 0 end)
    + list_sum (map snd (zone_counts_of M rest)).
Proof.
  rewrite !zone_counts_spec, !map_map. cbn [snd zone_names map list_sum fold_right].
  rewrite !count_in_cons.
  destruct (first_band (hr_zones M) hr) as [z|] eqn:E; cbv beta iota; [|lia].
  apply first_band_Some in E as [before [low [high [after [Hz _]]]]].
  assert (Hin : In z zone_names).
  { change zone_names with (map fst (hr_zones M)).
    rewrite Hz, map_app. apply in_or_app. right. now left. }
  unfold zone_names in Hin. cbn [In] in Hin.
  repeat (destruct Hin as [<-|Hin]; [cbn; lia|]). contradiction.
Qed.

(** The five bands leave no gap: when every sample lies inside 50% .. 100%
    of [M], every sample is counted in a band, so the five counts add up to
    the number of samples. *)
Theorem zone_counts_complete (M : Q) (current_hr : list Q)
    (Hall : Forall (in_bands M) current_hr) :
  list_sum (map snd (zone_counts_of M current_hr)) = List.length current_hr
  /\ Forall (fun hr => exists zone, first_band (hr_zones M) hr = Some zone)
            current_hr.
Proof.
  split.
  - induction Hall as [|hr rest Hhr _ IH]; [reflexivity|].
    rewrite zone_counts_cons, IH.
    destruct (in_bands_has_band M hr Hhr) as [zone ->]. reflexivity.
  - eapply Forall_impl; [|exact Hall]. apply in_bands_has_band.
Qed.

(** ** More on the segmenter *)

Lemma run_lengths_merge_sum (flag b : bool) (len : nat) (rs : list (bool * nat)) :
  list_sum (run_lengths b (merge_run flag len rs))
  = (if Bool.eqb flag b then len else 0) + list_sum (run_lengths b rs).
Proof.
  destruct rs as [|[f n] rs]; cbn [merge_run].
  - rewrite run_lengths_cons. destruct (Bool.eqb flag b); simpl; lia.
  - destruct (Bool.eqb f flag) eqn:E.
    + apply Bool.eqb_prop in E. subst f. rewrite !run_lengths_cons.
      destruct (Bool.eqb flag b); simpl; lia.
    + rewrite (run_lengths_cons b flag). destruct (Bool.eqb flag b); simpl; lia.
Qed.

Lemma runs_effort_sum (flags : list bool) :
  list_sum (run_lengths true (runs flags)) = List.length (filter (fun f => f) flags)
  /\ list_sum (run_lengths false (runs flags))
     = List.length (filter negb flags).
Proof.
  induction flags as [|flag rest [IHt IHf]]; [split; reflexivity|].
  cbn [runs filter]. rewrite !run_lengths_merge_sum, IHt, IHf.
  destruct flag; split; reflexivity.
Qed.

Lemma filter_flags (paces : list Q) :
  List.length (filter (fun f => f) (map is_effort paces)) = moving_count paces
  /\ List.length (filter negb (map is_effort paces))
     = List.length paces - moving_count paces.
Proof.
  unfold moving_count, is_effort.
  induction paces as [|p rest [IHt IHf]]; [split; reflexivity|].
  cbn [map filter]. pose proof (filter_length_le (fun p => Qlt_bool 0 p) rest).
  destruct (Qlt_bool 0 p); cbn [negb List.length]; split; lia.
Qed.

(** On every non-empty pace series the effort durations add up to the number
    of samples with pace > 0 and the rest durations to the number of the
    other samples. *)
Theorem segment_sums (first : Q) (rest : list Q) :
  exists efforts rests,
    segment (first :: rest) = Some (efforts, rests)
    /\ list_sum efforts = moving_count (first :: rest)
    /\ list_sum rests = List.length (first :: rest) - moving_count (first :: rest).
Proof.
  rewrite segment_runs. cbv zeta.
  set (paces := first :: rest). eexists. eexists. split; [reflexivity|].
  rewrite !run_lengths_merge_sum.
  destruct (runs_effort_sum (map is_effort paces)) as [Ht Hf].
  destruct (filter_flags paces) as [Hct Hcf].
  rewrite Ht, Hf, Hct, Hcf.
  destruct (Bool.eqb (negb (Qeq_bool first 0)) true),
           (Bool.eqb (negb (Qeq_bool first 0)) false); split; lia.
Qed.

Lemma merge_run_alternating (flag : bool) (len : nat) (rs : list (bool * nat)) :
  alternating rs -> alternating (merge_run flag len rs).
Proof.
  destruct rs as [|[f n] rs]; cbn [merge_run]; [trivial|].
  destruct (Bool.eqb f flag) eqn:E; intros H.
  - apply Bool.eqb_prop in E. subst f. destruct rs as [|[f' n'] rs]; exact H.
  - split; [|exact H]. intros ->. now rewrite Bool.eqb_reflx in E.
Qed.

Lemma runs_alternating (flags : list bool) : alternating (runs flags).
Proof.
  induction flags as [|flag rest IH]; [exact I|].
  cbn [runs]. now apply merge_run_alternating.
Qed.

(** In an alternating list the runs of the first flag are as many as the
    others, or one more. *)
Lemma alternating_counts (rs : list (bool * nat)) :
  alternating rs ->
  match rs with
  | [] => True
  | (flag, _) :: _ =>
      let mine := List.length (run_lengths flag rs) in
      let others := List.length (run_lengths (negb flag) rs) in
      mine = others \/ mine = S others
  end.
Proof.
  induction rs as [|[flag n] rest IH]; [trivial|].
  intros Halt. cbv zeta. rewrite !run_lengths_cons.
  rewrite Bool.eqb_reflx. replace (Bool.eqb flag (negb flag)) with false
    by (destruct flag; reflexivity).
  destruct rest as [|[flag' n'] rest'].
  - right. reflexivity.
  - destruct Halt as [Hdiff Halt]. specialize (IH Halt). cbv zeta in IH.
    assert (Hflag : flag' = negb flag)
      by (destruct flag, flag'; try reflexivity; now elim Hdiff).
    subst flag'. rewrite negb_involutive in IH.
    cbn [List.length]. destruct IH as [IH|IH]; [right|left]; lia.
Qed.

(** On every non-empty pace series the numbers of recorded effort runs and
    of recorded rest runs differ by at most one: the two states alternate. *)
Theorem segment_runs_alternate (first : Q) (rest : list Q) :
  exists efforts rests,
    segment (first :: rest) = Some (efforts, rests)
    /\ List.length efforts <= S (List.length rests)
    /\ List.length rests <= S (List.length efforts).
Proof.
  rewrite segment_runs. cbv zeta.
  set (rs := merge_run (negb (Qeq_bool first 0)) 0
                       (runs (map is_effort (first :: rest)))).
  exists (run_lengths true rs), (run_lengths false rs).
  split; [reflexivity|].
  assert (Halt : alternating rs)
    by (apply merge_run_alternating, runs_alternating).
  pose proof (alternating_counts rs Halt) as Hc.
  destruct rs as [|[[|] n] rs']; cbv zeta in Hc; cbn [negb] in Hc.
  - simpl. lia.
  - lia.
  - lia.
Qed.

(** ** Sign of the variance *)

Lemma square_nonneg (x : Q) : (0 <= x * x)%Q.
Proof.
  destruct (Qlt_le_dec x 0) as [H|H].
  - setoid_replace (x * x)%Q with ((- x) * (- x))%Q by ring.
    apply Qmult_le_0_compat; lra.
  - now apply Qmult_le_0_compat.
Qed.

Lemma sum_nonneg (xs : list Q) :
  Forall (fun x => 0 <= x)%Q xs -> (0 <= fold_right Qplus 0 xs)%Q.
Proof.
  induction 1 as [|x rest Hx _ IH]; cbn [fold_right]; lra.
Qed.

Lemma sum_nonneg_zero (xs : list Q) :
  Forall (fun x => 0 <= x)%Q xs -> (fold_right Qplus 0 xs == 0)%Q ->
  Forall (fun x => x == 0)%Q xs.
Proof.
  induction 1 as [|x rest Hx Hrest IH]; cbn [fold_right]; intros Hsum;
    [constructor|].
  pose proof (sum_nonneg rest Hrest) as Hr.
  constructor; [lra|]. apply IH. lra.
Qed.

Lemma sum_repeat (x : Q) (k : nat) :
  (fold_right Qplus 0 (repeat x k) == of_nat k * x)%Q.
Proof.
  induction k as [|k IH].
  - change (0 == 0 * x)%Q. ring.
  - cbn [repeat fold_right]. rewrite IH. unfold of_nat.
    rewrite Nat2Z.inj_succ. unfold Z.succ. rewrite inject_Z_plus. ring.
Qed.

Lemma population_variance_unfold (xs : list Q) :
  population_variance xs
  = (fold_right Qplus 0 (map (fun x => (x - mean xs) * (x - mean xs)) xs)
     / of_nat (List.length xs))%Q.
Proof.
  unfold population_variance at 1. unfold mean at 1. now rewrite length_map.
Qed.

Lemma squares_nonneg (m : Q) (xs : list Q) :
  Forall (fun x => 0 <= x)%Q (map (fun x => (x - m) * (x - m))%Q xs).
Proof.
  apply Forall_forall. intros y Hin.
  apply in_map_iff in Hin as [x [<- _]]. apply square_nonneg.
Qed.

(** The variance is never negative, and it is 0 exactly when all the deltas
    after the leading 0 are equal. *)
Theorem hr_variance_sign (lead : Z) (diffs : list Z) :
  (0 <= hr_variance_of (lead :: diffs))%Q
  /\ ((hr_variance_of (lead :: diffs) == 0)%Q
      <-> forall a b, In a diffs -> In b diffs -> a = b).
Proof.
  rewrite hr_variance_population, population_variance_unfold, length_map.
  set (xs := map inject_Z diffs). set (m := mean xs).
  pose proof (squares_nonneg m xs) as Hsq.
  destruct diffs as [|d rest].
  { split; [apply Qle_refl|]. split; [contradiction|reflexivity]. }
  set (diffs := d :: rest) in *.
  assert (Hn : (0 < of_nat (List.length diffs))%Q)
    by (apply of_nat_pos; simpl; lia).
  split.
  - apply Qle_shift_div_l; [exact Hn|].
    pose proof (sum_nonneg _ Hsq). lra.
  - split.
    + intros Hzero.
      assert (Hsum : (fold_right Qplus 0 (map (fun x => (x - m) * (x - m)) xs)
                      == 0)%Q).
      { setoid_replace (fold_right Qplus 0 (map (fun x => (x - m) * (x - m)) xs))%Q
          with (fold_right Qplus 0 (map (fun x => (x - m) * (x - m)) xs)
                / of_nat (List.length diffs) * of_nat (List.length diffs))%Q
          by (field; lra).
        rewrite Hzero. ring. }
      pose proof (sum_nonneg_zero _ Hsq Hsum) as Hall.
      rewrite Forall_forall in Hall.
      assert (Hmean : forall a, In a diffs -> (inject_Z a == m)%Q).
      { intros a Ha.
        assert (Hin : In ((inject_Z a - m) * (inject_Z a - m))%Q
                         (map (fun x => (x - m) * (x - m))%Q xs)).
        { apply in_map_iff. exists (inject_Z a). split; [reflexivity|].
          subst xs. now apply in_map. }
        specialize (Hall _ Hin). apply Qmult_integral in Hall. lra. }
      intros a b Ha Hb. apply inject_Z_injective.
      now rewrite (Hmean a Ha), (Hmean b Hb).
    + intros Hsame.
      assert (Hrep : diffs = repeat d (List.length diffs)).
      { apply Forall_eq_repeat. apply Forall_forall.
        intros a Ha. apply Hsame; [now left|exact Ha]. }
      assert (Hxs : xs = repeat (inject_Z d) (List.length diffs)).
      { subst xs. rewrite Hrep at 1. clear.
        induction (List.length diffs) as [|k IH]; [reflexivity|].
        cbn [repeat map]. now rewrite IH. }
      assert (Hm : (m == inject_Z d)%Q).
      { subst m. unfold mean. rewrite Hxs, repeat_length.
        rewrite sum_repeat. field. lra. }
      assert (Hterms : (fold_right Qplus 0 (map (fun x => (x - m) * (x - m)) xs)
                        == 0)%Q).
      { rewrite (fold_right_Qplus_ext _ (fun _ => 0%Q)).
        - clear. induction xs as [|x xs IH]; cbn [map fold_right]; [reflexivity|].
          rewrite IH. ring.
        - intros x Hx. rewrite Hxs in Hx. apply repeat_spec in Hx.
          subst x. rewrite Hm. ring. }
      rewrite Hterms. unfold Qdiv. ring.
Qed.

(** ** More on [process_workout] *)

Lemma export_rows_from_content (indices : list nat) (timestamps : list string)
    (hr_variations : list Z) (current_hr paces : list Q) (rows : list row) :
  export_rows_from indices timestamps hr_variations current_hr paces = Some rows ->
  rows = map (row_at timestamps hr_variations current_hr paces) indices.
Proof.
  revert rows. induction indices as [|i rest IH]; intros rows; cbn [export_rows_from].
  - intros H. now injection H as <-.
  - destruct (nth_error timestamps i) as [t|] eqn:Et; [|discriminate].
    destruct (nth_error hr_variations i) as [v|] eqn:Ev; [|discriminate].
    destruct (nth_error current_hr i) as [hr|] eqn:Ec; [|discriminate].
    destruct (nth_error paces i) as [p|] eqn:Ep; [|discriminate].
    destruct (export_rows_from rest timestamps hr_variations current_hr paces)
      as [rows'|]; [|discriminate].
    intros H. injection H as <-. cbn [map]. f_equal; [|now apply IH].
    unfold row_at.
    now rewrite (nth_error_nth _ _ _ Et), (nth_error_nth _ _ _ Ev),
      (nth_error_nth _ _ _ Ec), (nth_error_nth _ _ _ Ep).
Qed.

Lemma runs_all_idle (k : nat) :
  runs (map is_effort (repeat 0%Q (S k))) = [(false, S k)].
Proof.
  induction k as [|k IH]; [reflexivity|].
  change (runs (map is_effort (repeat 0%Q (S (S k)))))
    with (merge_run false 1 (runs (map is_effort (repeat 0%Q (S k))))).
  now rewrite IH.
Qed.

(** A series of zeros is one rest run. *)
Lemma segment_all_zero (n : nat) :
  0 < n -> segment (repeat 0%Q n) = Some ([], [n]).
Proof.
  destruct n as [|k]; [lia|]. intros _.
  change (repeat 0%Q (S k)) with (0%Q :: repeat 0%Q k).
  rewrite segment_runs_nonneg by apply Qle_refl. cbv zeta.
  change (0%Q :: repeat 0%Q k) with (repeat 0%Q (S k)).
  now rewrite runs_all_idle.
Qed.

Lemma moving_count_zeros (n : nat) : moving_count (repeat 0%Q n) = 0.
Proof.
  unfold moving_count. induction n as [|n IH]; [reflexivity|exact IH].
Qed.

Lemma fold_left_zeros (n : nat) (acc : Q) :
  fold_left Qplus (repeat 0%Q n) acc == acc.
Proof.
  revert acc. induction n as [|n IH]; intros acc; cbn [repeat fold_left];
    [reflexivity|]. rewrite IH. ring.
Qed.

(** What a metrics record that was computed is made of. *)
Lemma compute_metrics_some (py_float : string -> option Q) (w : workout)
    (n : nat) (hr_variations : list Z) (current_hr paces : list Q)
    (m : computed_metrics) :
  compute_metrics py_float w n hr_variations current_hr paces = Some m ->
  exists first_hr later_hr efforts rests laps pool_length,
    0 < n
    /\ current_hr = first_hr :: later_hr
    /\ segment paces = Some (efforts, rests)
    /\ float_field py_float (total_trips w) = Some laps
    /\ float_field py_float (swim_pool_length w) = Some pool_length
    /\ m = mk_metrics
             (laps * pool_length)%Q
             (if 0 <? n then (qsum paces / of_nat n)%Q else 0%Q)
             (of_nat (moving_count paces) / of_nat n * 100)%Q
             (100 - of_nat (moving_count paces) / of_nat n * 100)%Q
             (qmax first_hr later_hr) (qmin first_hr later_hr)
             first_hr (last current_hr 0%Q)
             (hr_variance_of hr_variations)
             (average_duration efforts) (average_duration rests)
             (zone_percentages_of hr_max_theoretical current_hr n).
Proof.
  unfold compute_metrics.
  destruct n as [|k]; [discriminate|].
  destruct current_hr as [|first_hr later_hr]; [discriminate|].
  destruct (segment paces) as [[efforts rests]|]; [|discriminate].
  destruct (float_field py_float (total_trips w)) as [laps|]; [|discriminate].
  destruct (float_field py_float (swim_pool_length w)) as [pool_length|];
    [|discriminate].
  intros H. injection H as <-.
  exists first_hr, later_hr, efforts, rests, laps, pool_length.
  repeat split; lia.
Qed.

Section ProcessMore.

Variable py_int : string -> option Z.
Variable py_float : string -> option Q.
Variable get_workout_detail : string -> string -> option detail_data.
Variable datetime : Type.
Variable local_datetime : Z -> option datetime.
Variable strftime_after : datetime -> nat -> string.
Variable strftime_file : datetime -> string.

Local Abbreviation points' := (num_points_of py_int).
Local Abbreviation run' :=
  (process_workout py_int py_float get_workout_detail
                   datetime local_datetime strftime_after strftime_file).
Local Abbreviation run_all' :=
  (process_all py_int py_float get_workout_detail
               datetime local_datetime strftime_after strftime_file).
Local Abbreviation stamps' := (generate_timestamps datetime strftime_after).

(** Everything a call that ends with an export went through. *)
Lemma process_workout_exported_full (w : workout) (log : list log_entry)
    (r : report) :
  run' w = (log, Exported r) ->
  exists d seconds start_time,
    get_workout_detail (trackid w) (source w) = Some d
    /\ 0 < points' d
    /\ py_int (trackid w) = Some seconds
    /\ local_datetime seconds = Some start_time
    /\ report_timestamps r = stamps' start_time (points' d)
    /\ report_hr_variations r = hr_variations_of (parse_hr py_int d) (points' d)
    /\ report_current_hr r = reconstruct_hr (parse_hr py_int d) (points' d)
    /\ report_paces r = process_pace py_float (parse_pace d) (points' d)
    /\ compute_metrics py_float w (points' d) (report_hr_variations r)
                       (report_current_hr r) (report_paces r)
       = Some (report_metrics r)
    /\ export_rows (report_timestamps r) (report_hr_variations r)
                   (report_current_hr r) (report_paces r)
       = Some (report_rows r)
    /\ log = [log_info ("Processing workout with track_id " ++ trackid w);
              log_info ("CSV exported to "
                        ++ output_path datetime strftime_file start_time)].
Proof.
  unfold process_workout.
  destruct (get_workout_detail (trackid w) (source w)) as [d|]; [|discriminate].
  destruct (points' d =? 0) eqn:En; [discriminate|].
  apply Nat.eqb_neq in En.
  destruct (py_int (trackid w)) as [seconds|] eqn:Eid; [|discriminate].
  destruct (local_datetime seconds) as [start_time|] eqn:Edt; [|discriminate].
  destruct (compute_metrics _ _ _ _ _ _) as [metrics|] eqn:Em; [|discriminate].
  destruct (export_rows _ _ _ _) as [rows|] eqn:Er; [|discriminate].
  intros H. injection H as <- <-.
  cbn [report_timestamps report_hr_variations report_current_hr report_paces
       report_metrics report_rows].
  exists d, seconds, start_time.
  repeat split; try reflexivity; try assumption; lia.
Qed.

Lemma points_bounds (d : detail_data) :
  points' d <= List.length (parse_times d)
  /\ points' d <= List.length (parse_hr py_int d)
  /\ points' d <= List.length (parse_pace d).
Proof.
  unfold num_points_of. lia.
Qed.

(** A stream that is absent or empty makes the common prefix length 0, so
    the workout is skipped. *)
Theorem missing_stream_skips (w : workout) (d : detail_data)
    (Hfetch : get_workout_detail (trackid w) (source w) = Some d)
    (Hmissing : get_str (time d) = "" \/ get_str (heart_rate d) = ""
                \/ get_str (pace d) = "") :
  points' d = 0 /\ snd (run' w) = Skipped.
Proof.
  assert (Hzero : points' d = 0).
  { pose proof (points_bounds d) as [Ht [Hh Hp]].
    destruct Hmissing as [H|[H|H]].
    - unfold parse_times in Ht. rewrite H in Ht. simpl in Ht. lia.
    - unfold parse_hr in Hh. rewrite H in Hh. simpl in Hh. lia.
    - unfold parse_pace in Hp. rewrite H in Hp. simpl in Hp. lia. }
  split; [exact Hzero|].
  unfold process_workout. now rewrite Hfetch, Hzero.
Qed.

(** The rows of an exported report: one per index of the aligned series, in
    order, each holding its index and the elements of the four series at
    that index. *)
Theorem exported_rows_content (w : workout) (log : list log_entry) (r : report)
    (Hrun : run' w = (log, Exported r)) :
  let n := List.length (report_paces r) in
  List.length (report_timestamps r) = n
  /\ List.length (report_hr_variations r) = n
  /\ List.length (report_current_hr r) = n
  /\ report_rows r
     = map (row_at (report_timestamps r) (report_hr_variations r)
                   (report_current_hr r) (report_paces r))
           (seq 0 n).
Proof.
  destruct (process_workout_exported_full w log r Hrun)
    as [d [seconds [start_time
         [_ [Hn [_ [_ [Ht [Hv [Hc [Hp [_ [Hrows _]]]]]]]]]]]]].
  pose proof (points_bounds d) as [_ [Hh Hpb]].
  assert (Hne : parse_hr py_int d <> []).
  { intros E. rewrite E in Hh. simpl in Hh. lia. }
  assert (Hlp : List.length (report_paces r) = points' d)
    by (rewrite Hp; now apply process_pace_length).
  assert (Hlt : List.length (report_timestamps r) = points' d)
    by (rewrite Ht; apply generate_timestamps_length).
  assert (Hlv : List.length (report_hr_variations r) = points' d)
    by (rewrite Hv; now apply hr_variations_length).
  assert (Hlc : List.length (report_current_hr r) = points' d)
    by (rewrite Hc; apply reconstruct_hr_length).
  cbv zeta. rewrite Hlp. repeat split; try assumption.
  unfold export_rows in Hrows. rewrite Hlt in Hrows.
  now apply export_rows_from_content.
Qed.

(** In an exported report the minimum and the maximum heart rate are samples
    of the series and bound every sample; the start is the first sample and
    the end the last. *)
Theorem exported_hr_extremes (w : workout) (log : list log_entry) (r : report)
    (Hrun : run' w = (log, Exported r)) :
  let m := report_metrics r in
  let current_hr := report_current_hr r in
  Forall (fun hr => hr_min m <= hr /\ hr <= hr_max m)%Q current_hr
  /\ In (hr_min m) current_hr
  /\ In (hr_max m) current_hr
  /\ nth_error current_hr 0 = Some (hr_start m)
  /\ hr_end m = last current_hr 0%Q.
Proof.
  destruct (process_workout_exported_full w log r Hrun)
    as [d [_ [_ [_ [_ [_ [_ [_ [_ [_ [_ [Hm _]]]]]]]]]]]].
  apply compute_metrics_some in Hm
    as [first_hr [later_hr [efforts [rests [laps [pool_length
         [_ [Hc [_ [_ [_ Hm]]]]]]]]]]].
  cbv zeta. rewrite Hm, Hc. cbn [hr_min hr_max hr_start hr_end].
  destruct (qmax_spec later_hr first_hr) as [Hmax0 [Hmax Hmaxin]].
  destruct (qmin_spec later_hr first_hr) as [Hmin0 [Hmin Hminin]].
  split; [|repeat split; assumption].
  constructor; [split; assumption|].
  rewrite Forall_forall in Hmax, Hmin. apply Forall_forall.
  intros hr Hin. split; [now apply Hmin|now apply Hmax].
Qed.

(** In an exported report the moving and the idle percentage both lie in
    0 .. 100 and add up to 100. *)
Theorem exported_percentages (w : workout) (log : list log_entry) (r : report)
    (Hrun : run' w = (log, Exported r)) :
  let m := report_metrics r in
  (0 <= percentage_moving m /\ percentage_moving m <= 100)%Q
  /\ (0 <= percentage_idle m /\ percentage_idle m <= 100)%Q
  /\ (percentage_moving m + percentage_idle m == 100)%Q.
Proof.
  destruct (process_workout_exported_full w log r Hrun)
    as [d [_ [_ [_ [Hn [_ [_ [_ [_ [_ [Hp [Hm _]]]]]]]]]]]].
  pose proof (points_bounds d) as [_ [_ Hpb]].
  assert (Hlp : List.length (report_paces r) = points' d)
    by (rewrite Hp; now apply process_pace_length).
  apply compute_metrics_some in Hm
    as [first_hr [later_hr [efforts [rests [laps [pool_length
         [_ [_ [_ [_ [_ Hm]]]]]]]]]]].
  cbv zeta. rewrite Hm. cbn [percentage_moving percentage_idle].
  pose proof (moving_count_le (report_paces r)) as Hle. rewrite Hlp in Hle.
  destruct (share_bounds _ _ Hle Hn) as [H0 H100].
  repeat split; lra.
Qed.

(** When [float] rejects one of the pace tokens inside the common prefix,
    an exported report shows the workout as idle throughout: every pace is 0,
    moving is 0%, idle is 100%, the average pace and the average effort
    duration are 0, and the average rest duration is the number of samples. *)
Theorem pace_fallback_all_idle (w : workout) (d : detail_data)
    (log : list log_entry) (r : report)
    (Hfetch : get_workout_detail (trackid w) (source w) = Some d)
    (Hrun : run' w = (log, Exported r))
    (Hbad : exists token,
        In token (firstn (points' d) (parse_pace d)) /\ py_float token = None) :
  let m := report_metrics r in
  report_paces r = repeat 0%Q (points' d)
  /\ (percentage_moving m == 0)%Q
  /\ (percentage_idle m == 100)%Q
  /\ (average_pace m == 0)%Q
  /\ (avg_effort_duration m == 0)%Q
  /\ (avg_rest_duration m == of_nat (points' d))%Q.
Proof.
  destruct (process_workout_exported_full w log r Hrun)
    as [d' [_ [_ [Hfetch' [Hn [_ [_ [_ [_ [_ [Hp [Hm _]]]]]]]]]]]].
  rewrite Hfetch in Hfetch'. injection Hfetch' as <-.
  assert (Hpaces : report_paces r = repeat 0%Q (points' d)).
  { rewrite Hp. unfold process_pace.
    now rewrite (floats_of_rejects py_float _ Hbad). }
  apply compute_metrics_some in Hm
    as [first_hr [later_hr [efforts [rests [laps [pool_length
         [_ [_ [Hseg [_ [_ Hm]]]]]]]]]]].
  rewrite Hpaces, (segment_all_zero _ Hn) in Hseg. injection Hseg as <- <-.
  cbv zeta. rewrite Hm, Hpaces.
  cbn [percentage_moving percentage_idle average_pace avg_effort_duration
       avg_rest_duration].
  rewrite moving_count_zeros.
  replace (0 <? points' d) with true by (symmetry; now apply Nat.ltb_lt).
  pose proof (of_nat_pos _ Hn) as Hpos.
  split; [reflexivity|].
  split; [change (of_nat 0) with 0%Q; unfold Qdiv; ring|].
  split; [change (of_nat 0) with 0%Q; unfold Qdiv; ring|].
  split; [unfold qsum; rewrite fold_left_zeros; unfold Qdiv; ring|].
  split; [reflexivity|].
  unfold average_duration. cbn [list_sum fold_right List.length].
  rewrite Nat.add_0_r. change (of_nat 1) with 1%Q. field.
Qed.

(** An exception in one workout ends the batch: the workouts after it are
    not processed, whatever they are. *)
Theorem process_all_stops_at_exception (w : workout) (log : list log_entry)
    (before after : list workout)
    (Hraise : run' w = (log, Raised)) :
  run_all' (before ++ w :: after) = run_all' (before ++ [w])
  /\ snd (run_all' (before ++ w :: after)) = false.
Proof.
  induction before as [|a before [IH IHf]].
  - cbn [app process_all]. rewrite Hraise. split; reflexivity.
  - cbn [app process_all]. rewrite IH.
    destruct (run' a) as [la [| |]]; [| |split; reflexivity];
      rewrite <- IH;
      destruct (run_all' (before ++ w :: after)) as [[l1 r1] f1];
      cbn [snd] in *; split; congruence.
Qed.

(** When no workout of the batch raises, the batch runs to its end and its
    reports are the reports of the workouts, in the order of submission; the
    log is the logs of the workouts one after the other. *)
Theorem process_all_in_order (workouts : list workout)
    (Hsafe : Forall (fun w => snd (run' w) <> Raised) workouts) :
  run_all' workouts
  = (flat_map (fun w => fst (run' w)) workouts,
     flat_map (fun w => exported_of (snd (run' w))) workouts,
     true).
Proof.
  induction Hsafe as [|w rest Hw _ IH]; [reflexivity|].
  cbn [process_all flat_map]. rewrite IH.
  destruct (run' w) as [lw [| |]]; cbn [fst snd exported_of app] in *;
    [reflexivity|reflexivity|congruence].
Qed.

End ProcessMore.

(** ** [main] *)

Section MainFacts.

Variable py_int : string -> option Z.
Variable py_float : string -> option Q.
Variable get_workout_detail : string -> string -> option detail_data.
Variable datetime : Type.
Variable local_datetime : Z -> option datetime.
Variable strftime_after : datetime -> nat -> string.
Variable strftime_file : datetime -> string.
Variable get_workout_history : option (list workout).

Local Abbreviation batch :=
  (process_all py_int py_float get_workout_detail
               datetime local_datetime strftime_after strftime_file).
Local Abbreviation main' :=
  (main py_int py_float get_workout_detail datetime local_datetime
        strftime_after strftime_file get_workout_history).

(** When the selection does not fail it is the filter by a positive pool
    length. *)
Lemma select_swimming_filter (workouts selected : list workout) :
  select_swimming py_float workouts = Some selected ->
  selected = filter (pool_is_positive py_float) workouts.
Proof.
  revert selected. induction workouts as [|w rest IH]; intros selected;
    cbn [select_swimming filter].
  - intros H. now injection H as <-.
  - unfold pool_is_positive at 1.
    destruct (swim_pool_length w) as [s|].
    + destruct (PyStr.truthy s); cbn [andb].
      * destruct (py_float s) as [v|]; [|discriminate].
        destruct (Qlt_bool 0 v);
          destruct (select_swimming py_float rest) as [sel|]; try discriminate;
          intros H; injection H as <-; now rewrite (IH sel eq_refl).
      * destruct (select_swimming py_float rest) as [sel|]; [|discriminate].
        intros H. injection H as <-. now apply IH.
    + destruct (select_swimming py_float rest) as [sel|]; [|discriminate].
      intros H. injection H as <-. now apply IH.
Qed.

(** The selection fails only on a pool length that is not empty and that
    [float] rejects. *)
Lemma select_swimming_succeeds (workouts : list workout) :
  (forall w s, In w workouts -> swim_pool_length w = Some s ->
               PyStr.truthy s = true -> py_float s <> None) ->
  select_swimming py_float workouts
  = Some (filter (pool_is_positive py_float) workouts).
Proof.
  intros Hok.
  destruct (select_swimming py_float workouts) as [sel|] eqn:E.
  - now rewrite (select_swimming_filter _ _ E).
  - exfalso. induction workouts as [|w rest IH]; [discriminate|].
    cbn [select_swimming] in E.
    destruct (select_swimming py_float rest) as [sel|] eqn:Er.
    + destruct (swim_pool_length w) as [s|] eqn:Es; [|discriminate].
      destruct (PyStr.truthy s) eqn:Et; [|discriminate].
      destruct (py_float s) as [v|] eqn:Ef.
      * destruct (Qlt_bool 0 v); discriminate.
      * exact (Hok w s (or_introl eq_refl) Es Et Ef).
    + apply IH; [|reflexivity]. intros w' s' Hin. apply Hok. now right.
Qed.

Lemma select_swimming_fails (workouts : list workout) (w : workout) (s : string) :
  In w workouts -> swim_pool_length w = Some s -> PyStr.truthy s = true ->
  py_float s = None -> select_swimming py_float workouts = None.
Proof.
  intros Hin Hs Ht Hf. induction workouts as [|w' rest IH]; [contradiction|].
  cbn [select_swimming]. destruct Hin as [->|Hin].
  - rewrite Hs, Ht, Hf. reflexivity.
  - rewrite (IH Hin). destruct (swim_pool_length w') as [s'|]; [|reflexivity].
    destruct (PyStr.truthy s'); [|reflexivity].
    destruct (py_float s') as [v|]; [|reflexivity].
    destruct (Qlt_bool 0 v); reflexivity.
Qed.

(** When the history is retrieved and [float] accepts every pool length that
    is present and not empty, [main] processes exactly the workouts with a
    positive pool length, in the order of the history: its reports and its
    completion are those of the batch over them, each of them has a pool
    length that is a positive number, and with none of them [main] only logs
    the warning. *)
Theorem main_processes_swimming (workouts : list workout)
    (Hhistory : get_workout_history = Some workouts)
    (Hfloat : forall w s, In w workouts -> swim_pool_length w = Some s ->
                          PyStr.truthy s = true -> py_float s <> None) :
  let selected := filter (pool_is_positive py_float) workouts in
  snd (fst main') = snd (fst (batch selected))
  /\ snd main' = snd (batch selected)
  /\ Forall (fun w => exists v,
                 float_field py_float (swim_pool_length w) = Some v /\ (0 < v)%Q)
            selected
  /\ (selected = [] ->
      main' = ([log_info "Retrieving workouts...";
                log_warning "No swimming workouts found."], [], true)).
Proof.
  intros selected.
  assert (Hmain : match selected with
                  | [] => main' = ([log_info "Retrieving workouts...";
                                    log_warning "No swimming workouts found."],
                                   [], true)
                  | _ => snd (fst main') = snd (fst (batch selected))
                         /\ snd main' = snd (batch selected)
                  end).
  { unfold main. rewrite Hhistory, (select_swimming_succeeds workouts Hfloat).
    fold selected. destruct selected as [|w rest]; [reflexivity|].
    destruct (batch (w :: rest)) as [[l rs] f]. split; reflexivity. }
  split; [|split; [|split]].
  - destruct selected; [now rewrite Hmain|apply Hmain].
  - destruct selected; [now rewrite Hmain|apply Hmain].
  - subst selected. apply Forall_forall. intros w Hin.
    apply filter_In in Hin as [_ Hpos]. unfold pool_is_positive in Hpos.
    destruct (swim_pool_length w) as [s|]; [|discriminate].
    apply andb_true_iff in Hpos as [_ Hpos].
    destruct (py_float s) as [v|] eqn:Ef; [|discriminate].
    exists v. cbn [float_field]. split; [exact Ef|now apply Qlt_bool_iff].
  - intros E. rewrite E in Hmain. exact Hmain.
Qed.

(** One pool length in the history that is not empty and that [float]
    rejects makes [main] fail before any workout is processed: nothing is
    logged after the first message and nothing is exported. *)
Theorem main_aborts_on_malformed_pool_length (workouts : list workout)
    (w : workout) (s : string)
    (Hhistory : get_workout_history = Some workouts)
    (Hin : In w workouts)
    (Hpool : swim_pool_length w = Some s)
    (Hnonempty : PyStr.truthy s = true)
    (Hfloat : py_float s = None) :
  main' = ([log_info "Retrieving workouts..."], [], false).
Proof.
  unfold main.
  now rewrite Hhistory, (select_swimming_fails workouts w s Hin Hpool Hnonempty Hfloat).
Qed.

End MainFacts.

(** ** The run time of the export *)

Lemma run_time_parts_bounds (timestamps : list string) (h m s : Z) :
  run_time_parts timestamps = (h, m, s) ->
  (h * 3600 + m * 60 + s = Z.of_nat (List.length timestamps) - 1
   /\ 0 <= m < 60 /\ 0 <= s < 60
   /\ (timestamps <> [] -> 0 <= h))%Z.
Proof.
  unfold run_time_parts, run_time_sec.
  set (sec := (Z.of_nat (List.length timestamps) - 1)%Z).
  intros H. injection H as <- <- <-.
  assert (Hpos : timestamps <> [] -> (0 <= sec)%Z).
  { intros Hne. subst sec. destruct timestamps; [contradiction|].
    cbn [List.length]. lia. }
  pose proof (Z.div_mod sec 3600 ltac:(lia)) as H1.
  pose proof (Z.mod_pos_bound sec 3600 ltac:(lia)) as B1.
  pose proof (Z.div_mod (sec mod 3600) 60 ltac:(lia)) as H2.
  pose proof (Z.mod_pos_bound (sec mod 3600) 60 ltac:(lia)) as B2.
  pose proof (Z.mod_pos_bound sec 60 ltac:(lia)) as B3.
  assert (H3 : ((sec mod 3600) mod 60 = sec mod 60)%Z).
  { clear. Z.div_mod_to_equations. lia. }
  split; [|split; [|split; [exact B3|]]].
  - lia.
  - split; [apply Z.div_pos; lia|apply Z.div_lt_upper_bound; lia].
  - intros Hne. apply Z.div_pos; [now apply Hpos|lia].
Qed.

(** The hours, minutes and seconds of the run time add up to the number of
    time stamps minus one, with minutes and seconds in 0 .. 59 and, for a
    non-empty series, hours that are not negative. *)
Theorem run_time_parts_spec (timestamps : list string) :
  let '(h, m, s) := run_time_parts timestamps in
  (h * 3600 + m * 60 + s = Z.of_nat (List.length timestamps) - 1
   /\ 0 <= m < 60 /\ 0 <= s < 60
   /\ (timestamps <> [] -> 0 <= h))%Z.
Proof.
  destruct (run_time_parts timestamps) as [[h m] s] eqn:E.
  now apply run_time_parts_bounds.
Qed.

Lemma string_length_app (a b : string) :
  String.length (a ++ b)%string = String.length a + String.length b.
Proof.
  induction a as [|c a IH]; simpl; [reflexivity|]. now rewrite IH.
Qed.

Lemma format_02d_table :
  forallb (fun k => String.length (format_02d (Z.of_nat k)) =? 2) (seq 0 100) = true.
Proof. vm_compute. reflexivity. Qed.

(** A number in 0 .. 99 is formatted with exactly two characters. *)
Lemma format_02d_length (n : Z) :
  (0 <= n < 100)%Z -> String.length (format_02d n) = 2.
Proof.
  intros Hn. pose proof format_02d_table as Htable.
  rewrite forallb_forall in Htable.
  specialize (Htable (Z.to_nat n)).
  rewrite Z2Nat.id in Htable by lia.
  apply Nat.eqb_eq, Htable, in_seq. lia.
Qed.

(** For 1 to 360000 time stamps (a run shorter than 100 hours) the run time
    is formatted with exactly 8 characters, with a colon after the hours and
    one after the minutes. *)
Theorem formatted_run_time_shape (timestamps : list string)
    (Hne : timestamps <> [])
    (Hlen : (Z.of_nat (List.length timestamps) <= 360000)%Z) :
  String.length (formatted_run_time timestamps) = 8
  /\ String.get 2 (formatted_run_time timestamps) = Some ":"%char
  /\ String.get 5 (formatted_run_time timestamps) = Some ":"%char.
Proof.
  unfold formatted_run_time.
  destruct (run_time_parts timestamps) as [[h m] s] eqn:E.
  destruct (run_time_parts_bounds timestamps h m s E) as [Hsum [Hm [Hs Hh]]].
  specialize (Hh Hne).
  assert (Hh100 : (0 <= h < 100)%Z) by lia.
  pose proof (format_02d_length h Hh100) as Lh.
  pose proof (format_02d_length m ltac:(lia)) as Lm.
  pose proof (format_02d_length s ltac:(lia)) as Ls.
  destruct (format_02d h) as [|h1 [|h2 [|? ?]]]; try discriminate.
  destruct (format_02d m) as [|m1 [|m2 [|? ?]]]; try discriminate.
  destruct (format_02d s) as [|s1 [|s2 [|? ?]]]; try discriminate.
  repeat split.
Qed.

(** ** The further properties on sample inputs *)

Lemma clean_tokens_roundtrip_witness :
  parse_times (mk_detail (Some "1,5;0;2,25") None None) = ["1,5"; "0"; "2,25"]
  /\ parse_pace (mk_detail None None (Some "1,5;0;2,25")) = ["1.5"; "0"; "2.25"].
Proof.
  assert (Hclean : Forall clean_token ["1,5"; "0"; "2,25"]).
  { repeat (constructor; [repeat split|]). constructor. }
  exact (clean_tokens_roundtrip ["1,5"; "0"; "2,25"] None None Hclean).
Defined.

Lemma parse_hr_roundtrip_witness :
  parse_hr Sample.decimal_int (mk_detail None (Some "0,70;1,5;2,-3") None)
  = [70; 5; -3]%Z.
Proof.
  assert (Hplain : Forall (fun pair => plain (fst pair) /\ plain (snd pair))
                          [("0", "70"); ("1", "5"); ("2", "-3")]).
  { repeat (constructor; [repeat split|]). constructor. }
  exact (parse_hr_roundtrip Sample.decimal_int
           [("0", "70"); ("1", "5"); ("2", "-3")] None None Hplain).
Defined.

Lemma missing_stream_skips_witness :
  snd (process_workout Sample.decimal_int Sample.decimal_float Sample.service
         Z Sample.seconds_datetime Sample.no_format Sample.file_name Sample.blank) = Skipped.
Proof.
  exact (proj2 (missing_stream_skips Sample.decimal_int Sample.decimal_float
                  Sample.service Z Sample.seconds_datetime Sample.no_format Sample.file_name
                  Sample.blank Sample.blank_detail eq_refl
                  (or_introl eq_refl))).
Defined.

Lemma reconstruct_hr_prefix_witness :
  reconstruct_hr [70; 5; -3]%Z 2 = firstn 2 (reconstruct_hr [70; 5; -3]%Z 5).
Proof.
  apply (reconstruct_hr_prefix [70; 5; -3]%Z 2 5). lia.
Defined.

Lemma reconstruct_hr_prefix_sum_witness :
  (nth 2 (reconstruct_hr [70; 5; -3]%Z 3) 0 == inject_Z (zsum [70; 5; -3]%Z))%Q.
Proof.
  apply (reconstruct_hr_prefix_sum [70; 5; -3]%Z 3 2); simpl; lia.
Defined.

Lemma reconstruct_delta_roundtrip_witness :
  delta_encode [70; 75; 72]%Z = [70; 5; -3]%Z
  /\ Forall2 (fun hr v => hr == inject_Z v)%Q
             (reconstruct_hr [70; 5; -3]%Z 3) [70; 75; 72]%Z.
Proof.
  split; [reflexivity|].
  apply (reconstruct_delta_roundtrip [70; 75; 72]%Z). discriminate.
Defined.

Lemma variation_is_difference_witness :
  (nth 1 (reconstruct_hr [70; 5; -3]%Z 3) 0 - nth 0 (reconstruct_hr [70; 5; -3]%Z 3) 0
   == inject_Z (nth 1 (hr_variations_of [70; 5; -3]%Z 3) 0%Z))%Q.
Proof.
  destruct (variation_is_difference [70; 5; -3]%Z 3 1) as [_ H];
    [simpl; lia|lia|].
  apply H. lia.
Defined.

Lemma zone_percentages_bounds_witness :
  Forall (fun zp => 0 <= snd zp /\ snd zp <= 100)%Q
         (zone_percentages_of 196 [100; 150; 200]%Q 3).
Proof.
  destruct (zone_percentages_bounds 196 [100; 150; 200]%Q ltac:(discriminate))
    as [_ H].
  exact H.
Defined.

Lemma zone_counts_complete_witness :
  list_sum (map snd (zone_counts_of 196 [100; 150; 150]%Q)) = 3.
Proof.
  assert (Hall : Forall (in_bands 196) [100; 150; 150]%Q).
  { unfold in_bands. repeat (constructor; [split; lra|]). constructor. }
  exact (proj1 (zone_counts_complete 196 [100; 150; 150]%Q Hall)).
Defined.

Lemma exported_rows_content_witness :
  match snd (process_workout Sample.decimal_int Sample.decimal_float
               Sample.service Z Sample.seconds_datetime Sample.no_format Sample.file_name
               Sample.swim) with
  | Exported r =>
      report_rows r
      = map (row_at (report_timestamps r) (report_hr_variations r)
                    (report_current_hr r) (report_paces r))
            (seq 0 (List.length (report_paces r)))
  | _ => False
  end.
Proof.
  destruct (process_workout Sample.decimal_int Sample.decimal_float
              Sample.service Z Sample.seconds_datetime Sample.no_format Sample.file_name
              Sample.swim) as [log o] eqn:E.
  destruct o as [|r|]; cbn [snd].
  - vm_compute in E. discriminate.
  - apply (exported_rows_content Sample.decimal_int Sample.decimal_float
             Sample.service Z Sample.seconds_datetime Sample.no_format Sample.file_name
             Sample.swim log r E).
  - vm_compute in E. discriminate.
Defined.

Lemma exported_hr_extremes_witness :
  match snd (process_workout Sample.decimal_int Sample.decimal_float
               Sample.service Z Sample.seconds_datetime Sample.no_format Sample.file_name
               Sample.swim) with
  | Exported r =>
      In (hr_min (report_metrics r)) (report_current_hr r)
      /\ In (hr_max (report_metrics r)) (report_current_hr r)
  | _ => False
  end.
Proof.
  destruct (process_workout Sample.decimal_int Sample.decimal_float
              Sample.service Z Sample.seconds_datetime Sample.no_format Sample.file_name
              Sample.swim) as [log o] eqn:E.
  destruct o as [|r|]; cbn [snd].
  - vm_compute in E. discriminate.
  - destruct (exported_hr_extremes Sample.decimal_int Sample.decimal_float
                Sample.service Z Sample.seconds_datetime Sample.no_format Sample.file_name
                Sample.swim log r E) as [_ [Hmin [Hmax _]]].
    split; assumption.
  - vm_compute in E. discriminate.
Defined.

Lemma exported_percentages_witness :
  match snd (process_workout Sample.decimal_int Sample.decimal_float
               Sample.service Z Sample.seconds_datetime Sample.no_format Sample.file_name
               Sample.swim) with
  | Exported r =>
      (percentage_moving (report_metrics r) + percentage_idle (report_metrics r)
       == 100)%Q
  | _ => False
  end.
Proof.
  destruct (process_workout Sample.decimal_int Sample.decimal_float
              Sample.service Z Sample.seconds_datetime Sample.no_format Sample.file_name
              Sample.swim) as [log o] eqn:E.
  destruct o as [|r|]; cbn [snd].
  - vm_compute in E. discriminate.
  - destruct (exported_percentages Sample.decimal_int Sample.decimal_float
                Sample.service Z Sample.seconds_datetime Sample.no_format Sample.file_name
                Sample.swim log r E) as [_ [_ H]].
    exact H.
  - vm_compute in E. discriminate.
Defined.

Lemma pace_fallback_all_idle_witness :
  match snd (process_workout Sample.decimal_int Sample.decimal_float
               MoreSamples.service Z Sample.seconds_datetime Sample.no_format Sample.file_name
               MoreSamples.garbled) with
  | Exported r =>
      report_paces r = [0; 0; 0]%Q
      /\ (percentage_idle (report_metrics r) == 100)%Q
  | _ => False
  end.
Proof.
  destruct (process_workout Sample.decimal_int Sample.decimal_float
              MoreSamples.service Z Sample.seconds_datetime Sample.no_format Sample.file_name
              MoreSamples.garbled) as [log o] eqn:E.
  destruct o as [|r|]; cbn [snd].
  - vm_compute in E. discriminate.
  - assert (Hbad : exists token,
               In token (firstn (num_points_of Sample.decimal_int
                                   MoreSamples.garbled_detail)
                                (parse_pace MoreSamples.garbled_detail))
               /\ Sample.decimal_float token = None).
    { exists "n/a". split; [right; left; reflexivity|reflexivity]. }
    destruct (pace_fallback_all_idle Sample.decimal_int Sample.decimal_float
                MoreSamples.service Z Sample.seconds_datetime Sample.no_format Sample.file_name
                MoreSamples.garbled MoreSamples.garbled_detail log r
                eq_refl E Hbad) as [Hp [_ [Hidle _]]].
    split; [exact Hp|exact Hidle].
  - vm_compute in E. discriminate.
Defined.

Lemma process_all_stops_at_exception_witness :
  process_all Sample.decimal_int Sample.decimal_float MoreSamples.service
              Z Sample.seconds_datetime Sample.no_format Sample.file_name
              ([Sample.swim] ++ MoreSamples.unknown :: [Sample.swim])
  = process_all Sample.decimal_int Sample.decimal_float MoreSamples.service
                Z Sample.seconds_datetime Sample.no_format Sample.file_name
                ([Sample.swim] ++ [MoreSamples.unknown]).
Proof.
  exact (proj1 (process_all_stops_at_exception
                  Sample.decimal_int Sample.decimal_float MoreSamples.service
                  Z Sample.seconds_datetime Sample.no_format Sample.file_name
                  MoreSamples.unknown _ [Sample.swim] [Sample.swim] eq_refl)).
Defined.

Lemma process_all_in_order_witness :
  snd (process_all Sample.decimal_int Sample.decimal_float MoreSamples.service
                   Z Sample.seconds_datetime Sample.no_format Sample.file_name
                   [Sample.swim; Sample.blank; MoreSamples.garbled]) = true.
Proof.
  assert (Hsafe : Forall
            (fun w => snd (process_workout Sample.decimal_int Sample.decimal_float
                             MoreSamples.service Z Sample.seconds_datetime
                             Sample.no_format Sample.file_name w) <> Raised)
            [Sample.swim; Sample.blank; MoreSamples.garbled]).
  { repeat (constructor; [vm_compute; discriminate|]). constructor. }
  now rewrite (process_all_in_order Sample.decimal_int Sample.decimal_float
                 MoreSamples.service Z Sample.seconds_datetime Sample.no_format Sample.file_name
                 _ Hsafe).
Defined.

Lemma main_processes_swimming_witness :
  filter (pool_is_positive Sample.decimal_float) MoreSamples.history
  = [Sample.swim; Sample.blank; MoreSamples.garbled]
  /\ snd (fst (main Sample.decimal_int Sample.decimal_float MoreSamples.service
                    Z Sample.seconds_datetime Sample.no_format Sample.file_name
                    (Some MoreSamples.history)))
     = snd (fst (process_all Sample.decimal_int Sample.decimal_float
                             MoreSamples.service Z Sample.seconds_datetime
                             Sample.no_format Sample.file_name
                             [Sample.swim; Sample.blank; MoreSamples.garbled])).
Proof.
  split; [reflexivity|].
  assert (Hfloat : forall w s, In w MoreSamples.history ->
            swim_pool_length w = Some s -> PyStr.truthy s = true ->
            Sample.decimal_float s <> None).
  { intros w s Hin Hs _. unfold MoreSamples.history in Hin. cbn [In] in Hin.
    destruct Hin as [<-|[<-|[<-|[<-|[]]]]]; cbn in Hs; try discriminate;
      injection Hs as <-; vm_compute; discriminate. }
  exact (proj1 (main_processes_swimming
                  Sample.decimal_int Sample.decimal_float MoreSamples.service
                  Z Sample.seconds_datetime Sample.no_format Sample.file_name
                  (Some MoreSamples.history) MoreSamples.history eq_refl Hfloat)).
Defined.

Lemma main_aborts_on_malformed_pool_length_witness :
  main Sample.decimal_int Sample.decimal_float MoreSamples.service
       Z Sample.seconds_datetime Sample.no_format Sample.file_name
       (Some [Sample.swim; MoreSamples.bad_pool])
  = ([log_info "Retrieving workouts..."], [], false).
Proof.
  apply (main_aborts_on_malformed_pool_length
           Sample.decimal_int Sample.decimal_float MoreSamples.service
           Z Sample.seconds_datetime Sample.no_format Sample.file_name
           (Some [Sample.swim; MoreSamples.bad_pool])
           [Sample.swim; MoreSamples.bad_pool] MoreSamples.bad_pool "25m");
    try reflexivity.
  right. now left.
Defined.

Lemma formatted_run_time_shape_witness :
  String.length (formatted_run_time ["a"; "b"; "c"]) = 8.
Proof.
  destruct (formatted_run_time_shape ["a"; "b"; "c"]) as [H _];
    [discriminate|simpl; lia|exact H].
Defined.
